(** * Tools: a shallow embedding of the tagging and download scripts

  The repository holds three Python scripts.  This development embeds
  [auto_tagger.py] (filename heuristics, MusicBrainz lookup, ID3 tag
  writing) and [spotify-dowloader.py] (URL validation, playlist
  pagination, YouTube search with retry, the file-exists prompt, tag
  writing, and the main loop) as Rocq functions, and proves properties
  of them.

  Conventions.
  - A Python [str] is a list of Unicode code points ([list N]), so that
    [len], slicing and character classes count what Python counts.
  - Code that can raise returns [res]; the exception is a value.
  - Calls that leave the process (HTTP, the catalog and video clients,
    the console) are oracles gathered in a record; mutable globals and
    the file system are threaded as explicit state. *)

From Stdlib Require Import NArith ZArith Ascii String DecimalString.
From stdpp Require Import gmap strings list fin_maps.
From Equations Require Import Equations.

Local Open Scope N_scope.

(** ** Python strings *)

Module Py.

Definition str : Type := list N.

(** An ASCII literal as a Python string. *)
Definition lit (s : string) : str := N_of_ascii <$> list_ascii_of_string s.

(** [str.isspace] on one code point, which is also what [\s] matches in
    a [str] pattern and what [str.strip()] removes. *)
Definition isspace (c : N) : bool :=
  ((9 <=? c) && (c <=? 13)) || ((28 <=? c) && (c <=? 32))
  || (c =? 133) || (c =? 160) || (c =? 5760)
  || ((8192 <=? c) && (c <=? 8202))
  || (c =? 8232) || (c =? 8233) || (c =? 8239) || (c =? 8287)
  || (c =? 12288).

Fixpoint lstrip (s : str) : str :=
  match s with
  | c :: s' => if isspace c then lstrip s' else s
  | [] => []
  end.

Definition rstrip (s : str) : str := reverse (lstrip (reverse s)).

Definition strip (s : str) : str := lstrip (rstrip s).

(** [s.replace(old, new)] for one-character [old] and [new]. *)
Definition replace (old new : N) (s : str) : str :=
  (fun c => if c =? old then new else c) <$> s.

Definition eqb (a b : str) : bool := bool_decide (a = b).

Fixpoint startswith (s prefix : str) : bool :=
  match prefix, s with
  | [], _ => true
  | p :: prefix', c :: s' => (c =? p) && startswith s' prefix'
  | _ :: _, [] => false
  end.

(** [needle in hay] *)
Fixpoint contains (needle hay : str) : bool :=
  startswith hay needle ||
  match hay with
  | [] => false
  | _ :: hay' => contains needle hay'
  end.

(** [s.rfind(c)] for a one-character [c]: the highest index, or [-1]. *)
Fixpoint rfind_from (c : N) (s : str) (i last : Z) : Z :=
  match s with
  | [] => last
  | x :: s' => rfind_from c s' (i + 1)%Z (if x =? c then i else last)
  end.

Definition rfind (c : N) (s : str) : Z := rfind_from c s 0%Z (-1)%Z.

(** [p[lo:hi]] for [0 <= lo]. *)
Definition slice (p : str) (lo hi : Z) : str :=
  take (Z.to_nat hi - Z.to_nat lo)%nat (drop (Z.to_nat lo) p).

Definition sep : N := 47.     (* "/" *)
Definition extsep : N := 46.  (* "." *)

(** [os.path.splitext] on POSIX ([genericpath._splitext] with [sep = "/"],
    no [altsep]).  The library's loop over [p[sepIndex+1 : dotIndex]]
    returns the split at the first character that is not a dot, and
    falls through to [(p, "")] when all of them are dots. *)
Definition splitext (p : str) : str * str :=
  let sepIndex := rfind sep p in
  let dotIndex := rfind extsep p in
  if (sepIndex <? dotIndex)%Z
     && existsb (fun c => negb (c =? extsep)) (slice p (sepIndex + 1) dotIndex)
  then (take (Z.to_nat dotIndex) p, drop (Z.to_nat dotIndex) p)
  else (p, []).

Definition endswith (s suffix : str) : bool :=
  startswith (reverse s) (reverse suffix).

(** Case mappings on the ASCII letters.  [lower] is only used to test for
    the suffix ".mp3" and [upper] only to compare with the answers "R",
    "RA", "S" and "SA"; no code point outside ASCII lowercases to one of
    ".mp3", and the only one that uppercases into "RAS" is the long s
    (U+017F), so other code points are left in place. *)
Definition lower (s : str) : str :=
  (fun c => if (65 <=? c) && (c <=? 90) then c + 32 else c) <$> s.

Definition upper (s : str) : str :=
  (fun c => if (97 <=? c) && (c <=? 122) then c - 32
            else if c =? 383 then 83 else c) <$> s.

(** [os.path.join(a, p)] on POSIX, two arguments. *)
Definition join (a p : str) : str :=
  if startswith p [sep] then p
  else if bool_decide (a = []) || endswith a [sep] then a ++ p
  else a ++ sep :: p.

(** [os.path.basename(p)]: [p[p.rfind("/") + 1:]] *)
Definition basename (p : str) : str := drop (Z.to_nat (rfind sep p + 1)) p.

(** [str(n)] for an [int]. *)
Definition of_int (n : Z) : str := lit (NilZero.string_of_int (Z.to_int n)).

End Py.

Notation "'py' s" := (Py.lit s%string) (at level 9, s at level 0, only parsing).

(** ** Exceptions, and the monad of state and exceptions *)

Inductive exn :=
| ValueError (msg : string)
| IndexError
| EOFError
| ID3NoHeaderError
| OtherError (msg : string)   (* any other subclass of [Exception] *)
| KeyboardInterrupt.          (* a [BaseException], not an [Exception] *)

Global Instance exn_eq_dec : EqDecision exn.
Proof. solve_decision. Defined.

Inductive res (A : Type) :=
| Ok (a : A)
| Raise (e : exn).
Arguments Ok {A} a.
Arguments Raise {A} e.

(** What [except Exception] catches. *)
Definition is_Exception (e : exn) : bool :=
  match e with
  | KeyboardInterrupt => false
  | _ => true
  end.

(** [l[i]] *)
Definition index {A} (l : list A) (i : nat) : res A :=
  match l !! i with
  | Some a => Ok a
  | None => Raise IndexError
  end.

Definition M (St A : Type) : Type := St -> res A * St.

Section Monad.
Context {St : Type}.

Definition ret {A} (a : A) : M St A := fun s => (Ok a, s).

Definition raise {A} (e : exn) : M St A := fun s => (Raise e, s).

Definition bind {A B} (c : M St A) (k : A -> M St B) : M St B :=
  fun s =>
    match c s with
    | (Ok a, s') => k a s'
    | (Raise e, s') => (Raise e, s')
    end.

Definition lift {A} (r : res A) : M St A := fun s => (r, s).

Definition gets {A} (f : St -> A) : M St A := fun s => (Ok (f s), s).

Definition modify (f : St -> St) : M St unit := fun s => (Ok tt, f s).

(** [try: c  except Exception as e: h e] *)
Definition try_except {A} (c : M St A) (h : exn -> M St A) : M St A :=
  fun s =>
    match c s with
    | (Raise e, s') => if is_Exception e then h e s' else (Raise e, s')
    | r => r
    end.

(** The state a computation leaves behind, whether it returns or raises. *)
Definition after {A} (c : M St A) (s : St) : St := (c s).2.

End Monad.

Declare Scope monad_scope.
Delimit Scope monad_scope with M.
Notation "x <- c ;; k" := (bind c (fun x => k))
  (at level 100, c at next level, right associativity) : monad_scope.
Notation "c ;; k" := (bind c (fun _ => k))
  (at level 100, right associativity) : monad_scope.
Local Open Scope monad_scope.

(** ** The tag container (mutagen)

    An MP3 file is modelled by its ID3 tag: [None] when the file has no
    ID3 header, otherwise a finite map from field name to frame.  The
    text fields carry the names [EasyID3] gives them; a text frame holds
    a list of values.  Item assignment replaces the frame stored under
    the key, and [save] writes the container to the file. *)

Inductive frame :=
| Text (text : list Py.str)
| APIC (encoding : N) (mime : Py.str) (type : N) (desc : Py.str) (data : list N).

Global Instance frame_eq_dec : EqDecision frame.
Proof. solve_decision. Defined.

Abbreviation id3 := (gmap string frame).
Abbreviation filesystem := (gmap (list N) (option (gmap string frame))).

(** The frame a file holds under a field name, if any. *)
Definition field_of (f : option id3) (key : string) : option frame :=
  tags ← f; tags !! key.

(** The frame that the file at [path] holds under a field name. *)
Definition field_at (files : filesystem) (path : Py.str) (key : string) : option frame :=
  file ← files !! path; field_of file key.

(** [EasyID3(filepath)]: the container of an existing file with a header. *)
Definition EasyID3 (fs : filesystem) (filepath : Py.str) : res id3 :=
  match fs !! filepath with
  | None => Raise (OtherError "MutagenError")
  | Some None => Raise ID3NoHeaderError
  | Some (Some tags) => Ok tags
  end.

(** ** auto_tagger.py *)

Module AutoTagger.

Definition colon : N := 58.            (* ":" *)
Definition fullwidth_colon : N := 65306. (* U+FF1A *)
Definition hyphen : N := 45.           (* "-" *)
Definition underscore : N := 95.       (* "_" *)
Definition space : N := 32.

(** The character class [[:：\-]] of the split pattern. *)
Definition is_delim (c : N) : bool :=
  (c =? colon) || (c =? fullwidth_colon) || (c =? hyphen).

(** The leftmost match of [[:：\-]\s*]: the text before it and the text
    after it.  The class consumes one character and [\s*] is greedy. *)
Fixpoint first_match (s : Py.str) : option (Py.str * Py.str) :=
  match s with
  | [] => None
  | c :: s' =>
      if is_delim c then Some ([], Py.lstrip s')
      else match first_match s' with
           | Some (l, r) => Some (c :: l, r)
           | None => None
           end
  end.

(** [re.split(r"[:：\-]\s*", s, maxsplit=1)] *)
Definition re_split (s : Py.str) : list Py.str :=
  match first_match s with
  | Some (l, r) => [l; r]
  | None => [s]
  end.

Definition parse_classical_filename (filename : Py.str) : Py.str * Py.str :=
  let name_no_ext := (Py.splitext filename).1 in
  let name_no_ext := Py.replace hyphen space (Py.replace underscore space name_no_ext) in
  let composer_guess := py "Unknown" in
  let track_guess := name_no_ext in
  let match_ := re_split name_no_ext in
  let '(composer_guess, track_guess) :=
    if (length match_ =? 2)%nat
    then (Py.strip (match_ !!! 0%nat), Py.strip (match_ !!! 1%nat))
    else (composer_guess, track_guess) in
  let composer_guess :=
    if (length composer_guess <? 2)%nat then py "Unknown" else composer_guess in
  (composer_guess, track_guess).

(** *** MusicBrainz query *)

(** What the script reads of a search result.  A field that the response
    may lack is an [option]; an artist credit that has no ["artist"]
    entry is [None], and reading it raises. *)
Record release := {
  release_title : option Py.str;
  release_date : option Py.str }.

Record recording := {
  recording_title : option Py.str;
  artist_credit : list (option (option Py.str));
  release_list : list release }.

(** The MusicBrainz client: [search_recordings(recording=, artist=, limit=5)]
    followed by [.get('recording-list', [])]. *)
Record world := {
  search_recordings : Py.str -> Py.str -> res (list recording) }.

Inductive printed :=
| Processing (fullpath : Py.str)
| CouldNotParse
| NoMatch (composer_guess track_guess : Py.str)
| QueryError (e : exn)
| TagsSet (title artist album date composer : Py.str)
| TagError (e : exn).

Record state := {
  fs : filesystem;
  out : list printed }.

(** [print], to a console that takes every line.  A standard output
    whose encoding lacks a character of the line makes Python's [print]
    raise; such a console is not modelled. *)
Definition print (p : printed) : M state unit :=
  modify (fun s => {| fs := fs s; out := out s ++ [p] |}).

Definition write_file (filepath : Py.str) (tags : id3) : M state unit :=
  modify (fun s => {| fs := <[filepath := Some tags]> (fs s); out := out s |}).

Section Tagger.
Variable w : world.

Definition lookup_musicbrainz_recording (artist_guess track_guess : Py.str)
  : M state (option (gmap string Py.str)) :=
  try_except
    (rec_list <- lift (search_recordings w track_guess artist_guess) ;;
     match rec_list with
     | [] => ret None
     | best :: _ =>
         let meta : gmap string Py.str := ∅ in
         let meta := <["title" := default track_guess (recording_title best)]> meta in
         meta <- match artist_credit best with
                 | Some artist :: _ =>
                     ret (<["artist" := default artist_guess artist]> meta)
                 | None :: _ => raise (OtherError "KeyError")
                 | [] => ret (<["artist" := artist_guess]> meta)
                 end ;;
         let meta :=
           match release_list best with
           | release :: _ =>
               <["date" := default [] (release_date release)]>
                 (<["album" := default [] (release_title release)]> meta)
           | [] => <["date" := []]> (<["album" := []]> meta)
           end in
         let meta := <["composer" := artist_guess]> meta in
         let meta := <["genre" := py "Classical"]> meta in
         ret (Some meta)
     end)
    (fun e => print (QueryError e) ;; ret None).

(** *** Writing tags *)

Definition normalize_unknown (value : Py.str) : Py.str :=
  if Py.eqb value (py "[unknown]") then py "Unknown" else value.

(** The inner [try]: open the container, creating an empty one in the
    file when it has no header. *)
Definition open_or_init (filepath : Py.str) : M state id3 :=
  fun s =>
    match EasyID3 (fs s) filepath with
    | Raise ID3NoHeaderError =>
        (write_file filepath ∅ ;; lift (EasyID3 (<[filepath := Some ∅]> (fs s)) filepath)) s
    | r => (r, s)
    end.

Definition store_if_present (mb_data : gmap string Py.str) (field key : string)
    (audio : id3) : id3 :=
  match mb_data !! key with
  | Some val =>
      if bool_decide (val = []) then audio
      else
        let val := if Py.eqb val (py "[unknown]") then py "Unknown" else val in
        <[field := Text [val]]> audio
  | None => audio
  end.

(** [audio.get(key, [""])[0]] *)
Definition first_value (audio : id3) (key : string) : res Py.str :=
  index (match audio !! key with
         | Some (Text values) => values
         | _ => [[]]
         end) 0.

Definition set_id3_tags (filepath : Py.str) (mb_data : gmap string Py.str)
  : M state unit :=
  try_except
    (audio <- open_or_init filepath ;;
     let audio := store_if_present mb_data "title" "title" audio in
     let audio := store_if_present mb_data "artist" "artist" audio in
     let audio := store_if_present mb_data "album" "album" audio in
     let audio := store_if_present mb_data "date" "date" audio in
     let audio := store_if_present mb_data "composer" "composer" audio in
     let audio := store_if_present mb_data "genre" "genre" audio in
     write_file filepath audio ;;
     final_title <- lift (first_value audio "title") ;;
     final_artist <- lift (first_value audio "artist") ;;
     final_album <- lift (first_value audio "album") ;;
     final_date <- lift (first_value audio "date") ;;
     final_composer <- lift (first_value audio "composer") ;;
     print (TagsSet (normalize_unknown final_title) (normalize_unknown final_artist)
              (normalize_unknown final_album) (normalize_unknown final_date)
              (normalize_unknown final_composer)))
    (fun e => print (TagError e)).

(** The six calls of [store_if_present] in a row, and the value that
    they write under a field name: the one [mb_data] has for it, when it
    has one that is not empty. *)
Definition store_fields (mb_data : gmap string Py.str) (audio : id3) : id3 :=
  let audio := store_if_present mb_data "title" "title" audio in
  let audio := store_if_present mb_data "artist" "artist" audio in
  let audio := store_if_present mb_data "album" "album" audio in
  let audio := store_if_present mb_data "date" "date" audio in
  let audio := store_if_present mb_data "composer" "composer" audio in
  store_if_present mb_data "genre" "genre" audio.

Definition tag_fields : list string :=
  ["title"; "artist"; "album"; "date"; "composer"; "genre"]%string.

Definition written (mb_data : gmap string Py.str) (key : string) : option Py.str :=
  if bool_decide (key ∈ tag_fields) then
    match mb_data !! key with
    | Some val => if bool_decide (val = []) then None else Some val
    | None => None
    end
  else None.

(** *** The walk over the files *)

Fixpoint for_each {A} (body : A -> M state unit) (l : list A) : M state unit :=
  match l with
  | [] => ret tt
  | a :: l' => body a ;; for_each body l'
  end.

(** One iteration of the inner loop of [main]. *)
Definition process_file (dirpath fname : Py.str) : M state unit :=
  if negb (Py.endswith (Py.lower fname) (py ".mp3")) then ret tt
  else
    let fullpath := Py.join dirpath fname in
    print (Processing fullpath) ;;
    let '(composer_guess, track_guess) := parse_classical_filename fname in
    if bool_decide (track_guess = []) then print CouldNotParse
    else
      metadata <- lookup_musicbrainz_recording composer_guess track_guess ;;
      match metadata with
      | None => print (NoMatch composer_guess track_guess)
      | Some metadata => set_id3_tags fullpath metadata
      end.

(** [main], given what [os.walk(root_folder)] yields. *)
Definition main (walk : list (Py.str * list Py.str)) : M state unit :=
  for_each (fun '(dirpath, filenames) => for_each (process_file dirpath) filenames) walk.

End Tagger.

(** The paths of the files that [main] takes up: the names that end in
    ".mp3" in any case, joined to their folder. *)
Definition walked_paths (walk : list (Py.str * list Py.str)) : list Py.str :=
  walk ≫= fun '(dirpath, filenames) =>
    Py.join dirpath
      <$> filter (fun fname => Py.endswith (Py.lower fname) (py ".mp3") = true) filenames.

End AutoTagger.


(** ** spotify-dowloader.py *)

Module SpotifyDownloader.

(** The metadata dictionary that [get_track_info] builds. *)
Record track_info := {
  artist_name : Py.str;
  track_title : Py.str;
  track_number : Z;
  isrc : Py.str;
  album_art : Py.str;
  album_name : Py.str;
  release_date : Py.str;
  artists : list Py.str }.

(** What the script reads of the catalog's answer to [sp.track(url)]. *)
Record sp_track := {
  track_artists : list Py.str;        (* [artist["name"]] of each artist *)
  track_name : Py.str;
  track_track_number : Z;
  external_isrc : option Py.str;      (* [external_ids.get("isrc")] *)
  album_images : list Py.str;         (* the ["url"] of each image *)
  track_album_name : Py.str;
  album_release_date : Py.str }.

(** A page of [sp.playlist_items]: for each item its ["track"] ([None]
    when null or empty) and in it the ["id"], and whether ["next"] is set. *)
Record playlist_page := {
  items : list (option (option Py.str));
  next : bool }.

(** Everything outside the process.  An oracle that can raise returns
    [res].  The search transport is indexed by the attempt within one
    call of [find_youtube]; a response carries what
    [response.read().decode()] gives. *)
Record world := {
  requests_get : Py.str -> res nat;               (* [.status_code] *)
  sp_track_api : Py.str -> res sp_track;
  sp_playlist_public : Py.str -> res bool;        (* [sp.playlist(url)["public"]] *)
  sp_playlist_items : Py.str -> nat -> res playlist_page;
  urlopen_search : Py.str -> nat -> res (res Py.str);
  yt_title : Py.str -> res Py.str;                (* [YouTube(link).title] *)
  yt_audio : Py.str -> res (option (gmap string frame)); (* download and transcode *)
  yt_leftover : Py.str -> list (Py.str * option (gmap string frame));
                                                  (* what a failed [yt_audio] leaves *)
  urlopen_art : Py.str -> res (list N) }.

Inductive event :=
| Urlopen (search_url : Py.str)
| Sleep (seconds : nat)
| Input
| Searching (i total_songs : nat) (search_term : Py.str)
| SearchFailed (e : exn)
| Downloading (artist title : Py.str)
| FileExists
| InvalidResponse
| Saved
| Skipped
| Summary (downloaded_count total_songs : nat)
| Canceled
| Error (e : exn).

Global Instance event_eq_dec : EqDecision event.
Proof. solve_decision. Defined.

Record state := {
  file_exists_action : Py.str;   (* the global of that name *)
  stdin : list Py.str;           (* the lines the console will deliver *)
  fs : filesystem;
  out : list event }.

(** The state after the lines [es] were printed or the calls [es] made. *)
Definition emit (es : list event) (s : state) : state :=
  {| file_exists_action := file_exists_action s; stdin := stdin s;
     fs := fs s; out := out s ++ es |}.

Definition print (e : event) : M state unit := modify (emit [e]).

Definition set_fs (f : filesystem -> filesystem) : M state unit :=
  modify (fun s => {| file_exists_action := file_exists_action s; stdin := stdin s;
                      fs := f (fs s); out := out s |}).

Definition set_file_exists_action (a : Py.str) : M state unit :=
  modify (fun s => {| file_exists_action := a; stdin := stdin s;
                      fs := fs s; out := out s |}).

(** The console hands over [line] and keeps [rest]. *)
Definition read_line (rest : list Py.str) : M state unit :=
  modify (fun s => {| file_exists_action := file_exists_action s; stdin := rest;
                      fs := fs s; out := out s ++ [Input] |}).

(** [input(...)] *)
Definition input : M state Py.str :=
  lines <- gets stdin ;;
  match lines with
  | [] => raise EOFError
  | line :: rest => read_line rest ;; ret line
  end.

(** *** Spotify *)

Definition newline : N := 10.

(** [.+$] against the whole of [s]: the dot matches all but a newline,
    and [$] matches at the end or before a newline that ends the string. *)
Definition dot_plus_end (s : Py.str) : bool :=
  let body := if Py.endswith s [newline] then take (length s - 1) s else s in
  negb (bool_decide (body = [])) && forallb (fun c => negb (c =? newline)) body.

(** [open\.spotify\.com/(playlist|track)/.+$] against the whole of [s] *)
Definition host_and_path (s : Py.str) : bool :=
  Py.startswith s (py "open.spotify.com/") &&
  (let r := drop 17 s in
   (Py.startswith r (py "playlist/") && dot_plus_end (drop 9 r))
   || (Py.startswith r (py "track/") && dot_plus_end (drop 6 r))).

(** [re.search(r"^(https?://)?open\.spotify\.com/(playlist|track)/.+$", s)] *)
Definition re_search_pattern (s : Py.str) : bool :=
  (Py.startswith s (py "https://") && host_and_path (drop 8 s))
  || (Py.startswith s (py "http://") && host_and_path (drop 7 s))
  || host_and_path s.

Definition validate_spotify_url (sp_url : Py.str) : res Py.str :=
  if re_search_pattern sp_url then Ok sp_url
  else Raise (ValueError "Invalid Spotify URL format.").

Section Run.
Variable w : world.

Definition get_track_info (track_url : Py.str) : res track_info :=
  match requests_get w track_url with
  | Raise e => Raise e
  | Ok status_code =>
      if negb (status_code =? 200)%nat
      then Raise (ValueError "Invalid Spotify track URL or track not accessible.")
      else
        match sp_track_api w track_url with
        | Raise e => Raise e
        | Ok track =>
            match index (track_artists track) 0,
                  (if (1 <? length (album_images track))%nat
                   then index (album_images track) 1
                   else index (album_images track) 0) with
            | Ok first_artist, Ok art =>
                Ok {| artist_name := first_artist;
                      track_title := track_name track;
                      track_number := track_track_number track;
                      isrc := default [] (external_isrc track);
                      album_art := art;
                      album_name := track_album_name track;
                      release_date := album_release_date track;
                      artists := track_artists track |}
            | Raise e, _ => Raise e
            | _, Raise e => Raise e
            end
        end
  end.

(** The [for item in items] loop of [get_playlist_info]. *)
Fixpoint resolve_items (items : list (option (option Py.str)))
    (tracks_info : list track_info) : res (list track_info) :=
  match items with
  | [] => Ok tracks_info
  | Some (Some track_id) :: rest =>
      if bool_decide (track_id = []) then resolve_items rest tracks_info
      else
        let track_url := py "https://open.spotify.com/track/" ++ track_id in
        match get_track_info track_url with
        | Ok track_metadata => resolve_items rest (tracks_info ++ [track_metadata])
        | Raise e => Raise e
        end
  | _ :: rest => resolve_items rest tracks_info
  end.

(** The [while True] loop of [get_playlist_info].  It need not end, so
    the model counts page fetches: [None] means that [fuel] fetches were
    not enough. *)
Fixpoint paginate (fuel : nat) (playlist_url : Py.str) (offset : nat)
    (tracks_info : list track_info) : option (res (list track_info)) :=
  match fuel with
  | O => None
  | S fuel =>
      match sp_playlist_items w playlist_url offset with
      | Raise e => Some (Raise e)
      | Ok pl_tracks =>
          if bool_decide (items pl_tracks = []) then Some (Ok tracks_info)
          else
            match resolve_items (items pl_tracks) tracks_info with
            | Raise e => Some (Raise e)
            | Ok tracks_info =>
                let offset := (offset + length (items pl_tracks))%nat in
                if negb (next pl_tracks) then Some (Ok tracks_info)
                else paginate fuel playlist_url offset tracks_info
            end
      end
  end.

Definition get_playlist_info (fuel : nat) (playlist_url : Py.str)
  : option (res (list track_info)) :=
  match requests_get w playlist_url with
  | Raise e => Some (Raise e)
  | Ok status_code =>
      if negb (status_code =? 200)%nat
      then Some (Raise (ValueError "Invalid or inaccessible Spotify playlist URL."))
      else
        match sp_playlist_public w playlist_url with
        | Raise e => Some (Raise e)
        | Ok public =>
            if negb public
            then Some (Raise (ValueError
                   "Cannot download from a private playlist. Make it public first."))
            else paginate fuel playlist_url 0 []
        end
  end.


(** *** YouTube search *)

(** A match of [watch\?v=(\S{11})] at the start of [s]: the group. *)
Definition match_watch (s : Py.str) : option Py.str :=
  let video_id := take 11 (drop 8 s) in
  if Py.startswith s (py "watch?v=")
     && (length video_id =? 11)%nat
     && forallb (fun c => negb (Py.isspace c)) video_id
  then Some video_id else None.

(** [re.findall(r"watch\?v=(\S{11})", s)]: the matches from left to
    right without overlap; [skip] characters belong to the last match. *)
Fixpoint findall_watch (skip : nat) (s : Py.str) : list Py.str :=
  match s with
  | [] => []
  | _ :: s' =>
      match skip with
      | S skip => findall_watch skip s'
      | O =>
          match match_watch s with
          | Some video_id => video_id :: findall_watch 18 s'
          | None => findall_watch 0 s'
          end
      end
  end.

(** The [while attempts < 3] loop with its [else] clause.  The bare
    [except] catches whatever [urlopen] raises. *)
Equations retry_urlopen (search_url : Py.str) (attempts : nat) (s : state)
  : res (res Py.str) * state by wf (3 - attempts)%nat lt :=
retry_urlopen search_url attempts s with decide (attempts < 3)%nat => {
  | left _ with urlopen_search w search_url attempts => {
      | Ok response => (Ok response, after (print (Urlopen search_url)) s)
      | Raise _ =>
          retry_urlopen search_url (S attempts)
            (after (print (Urlopen search_url) ;; print (Sleep 1)) s) }
  | right _ =>
      (Raise (ValueError "Failed to reach YouTube. Check internet connection."), s) }.
Next Obligation. lia. Qed.

Definition find_youtube (query : Py.str) : M state Py.str :=
  let phrase := Py.replace 32 43 query in
  let search_url := py "https://www.youtube.com/results?search_query=" ++ phrase in
  response <- retry_urlopen search_url 0 ;;
  search_html <- lift response ;;
  let search_results := findall_watch 0 search_html in
  match search_results with
  | [] => raise (ValueError "No YouTube results found for query.")
  | first :: _ => ret (py "https://www.youtube.com/watch?v=" ++ first)
  end.

(** *** The file-exists prompt *)

Definition RA : Py.str := py "RA".
Definition SA : Py.str := py "SA".

(** The [while True] loop around [input].  [lines] is what the console
    still holds; when it runs dry [input] raises [EOFError]. *)
Fixpoint prompt_loop (lines : list Py.str) : M state bool :=
  match lines with
  | [] => raise EOFError
  | line :: rest =>
      read_line rest ;;
      let resp := Py.strip (Py.upper line) in
      if Py.eqb resp (py "R") || Py.eqb resp RA then
        (if Py.eqb resp RA then set_file_exists_action RA else ret tt) ;;
        ret true
      else if Py.eqb resp (py "S") || Py.eqb resp SA then
        (if Py.eqb resp SA then set_file_exists_action SA else ret tt) ;;
        ret false
      else
        print InvalidResponse ;;
        prompt_loop rest
  end.

Definition prompt_file_exists_action : M state bool :=
  action <- gets file_exists_action ;;
  if Py.eqb action SA || Py.eqb action RA then ret (Py.eqb action RA)
  else
    print FileExists ;;
    lines <- gets stdin ;;
    prompt_loop lines.

(** The four answers as the specification names them, the answer a
    console line stands for, and what an answer means. *)
Inductive ConflictDecision := ReplaceOnce | ReplaceAll | SkipOnce | SkipAll.

Definition decision_of (line : Py.str) : option ConflictDecision :=
  let resp := Py.strip (Py.upper line) in
  if Py.eqb resp (py "R") then Some ReplaceOnce
  else if Py.eqb resp RA then Some ReplaceAll
  else if Py.eqb resp (py "S") then Some SkipOnce
  else if Py.eqb resp SA then Some SkipAll
  else None.



(** *** Download *)

(** The characters removed from the video title. *)
Definition invalid_filename_chars : list N := [47; 92; 124; 63; 42; 58; 62; 60; 34].

(** [os.path.exists] *)
Definition exists_ (path : Py.str) : M state bool :=
  gets (fun s => bool_decide (is_Some (fs s !! path))).

(** The files that a failed download or transcoding has written by the
    time it raises, each under its name in the scratch folder. *)
Definition leave (files : list (Py.str * option (gmap string frame)))
    (files0 : filesystem) : filesystem :=
  foldr (fun f files0 => <[Py.join (py "../music/tmp") f.1 := f.2]> files0) files0 files.

(** The stream download, the transcoding and the removal of the raw
    download (lines 265 to 276) are one oracle, [yt_audio].  When it
    returns, only the MP3 is left of them, which line 280 moves to its
    sanitized name.  When it raises, nothing removes what it has written
    by then, the raw download and what there is of the MP3: these files,
    [yt_leftover], stay in the scratch folder. *)
Definition download_yt (yt_link : Py.str) : M state (option Py.str) :=
  title <- lift (yt_title w yt_link) ;;
  let safe_title := filter (fun c => c ∉ invalid_filename_chars) title in
  let out_filename := safe_title ++ py ".mp3" in
  let final_path := Py.join (py "../music") out_filename in
  present <- exists_ final_path ;;
  proceed <- (if present then prompt_file_exists_action else ret true) ;;
  if negb proceed then ret None
  else
    match yt_audio w yt_link with
    | Raise e => set_fs (leave (yt_leftover w yt_link)) ;; raise e
    | Ok audio =>
        let final_tmp_path := Py.join (py "../music/tmp") out_filename in
        set_fs (insert final_tmp_path audio) ;;
        ret (Some final_tmp_path)
    end.

(** *** Metadata *)

(** The [try] at the head of [set_metadata]: open the container, and
    when the file has no header create an empty one in it. *)
Definition open_or_init (file_path : Py.str) : M state (gmap string frame) :=
  fun s =>
    match EasyID3 (fs s) file_path with
    | Ok audiofile => (Ok audiofile, s)
    | Raise KeyboardInterrupt => (Raise KeyboardInterrupt, s)
    | Raise _ =>
        match EasyID3 (fs s) file_path with   (* [ID3(file_path)] *)
        | Raise ID3NoHeaderError =>
            (set_fs (insert file_path (Some ∅)) ;;
             s' <- gets fs ;; lift (EasyID3 s' file_path)) s
        | Raise e => (Raise e, s)
        | Ok _ => (EasyID3 (fs s) file_path, s)
        end
    end.

Definition set_metadata (metadata : track_info) (file_path : Py.str) : M state unit :=
  audiofile <- open_or_init file_path ;;
  let audiofile := <["albumartist" := Text [artist_name metadata]]> audiofile in
  let audiofile := <["artist" := Text (artists metadata)]> audiofile in
  let audiofile := <["album" := Text [album_name metadata]]> audiofile in
  let audiofile := <["title" := Text [track_title metadata]]> audiofile in
  let audiofile := <["date" := Text [release_date metadata]]> audiofile in
  let audiofile := <["tracknumber" := Text [Py.of_int (track_number metadata)]]> audiofile in
  let audiofile :=
    if negb (bool_decide (isrc metadata = []))
    then <["isrc" := Text [isrc metadata]]> audiofile else audiofile in
  set_fs (insert file_path (Some audiofile)) ;;
  files <- gets fs ;;
  audio_data <- lift (EasyID3 files file_path) ;;   (* [ID3(file_path)] *)
  album_bytes <- lift (urlopen_art w (album_art metadata)) ;;
  let audio_data := <["APIC" := APIC 3 (py "image/jpeg") 3 (py "Cover") album_bytes]> audio_data in
  set_fs (insert file_path (Some audio_data)).

(** The assignments under "Fill in basic tags", and the cover frame. *)
Definition basic_tags (metadata : track_info) (audiofile : gmap string frame)
  : gmap string frame :=
  let audiofile := <["albumartist" := Text [artist_name metadata]]> audiofile in
  let audiofile := <["artist" := Text (artists metadata)]> audiofile in
  let audiofile := <["album" := Text [album_name metadata]]> audiofile in
  let audiofile := <["title" := Text [track_title metadata]]> audiofile in
  let audiofile := <["date" := Text [release_date metadata]]> audiofile in
  let audiofile := <["tracknumber" := Text [Py.of_int (track_number metadata)]]> audiofile in
  if negb (bool_decide (isrc metadata = []))
  then <["isrc" := Text [isrc metadata]]> audiofile else audiofile.

Definition cover (album_bytes : list N) : frame :=
  APIC 3 (py "image/jpeg") 3 (py "Cover") album_bytes.

Definition basic_fields : list string :=
  ["albumartist"; "artist"; "album"; "title"; "date"; "tracknumber"]%string.

(** The frame that [basic_tags] stores under a field name, if any. *)
Definition written_basic (metadata : track_info) (key : string) : option frame :=
  if bool_decide (key = "albumartist") then Some (Text [artist_name metadata])
  else if bool_decide (key = "artist") then Some (Text (artists metadata))
  else if bool_decide (key = "album") then Some (Text [album_name metadata])
  else if bool_decide (key = "title") then Some (Text [track_title metadata])
  else if bool_decide (key = "date") then Some (Text [release_date metadata])
  else if bool_decide (key = "tracknumber")
       then Some (Text [Py.of_int (track_number metadata)])
  else if bool_decide (key = "isrc") && negb (bool_decide (isrc metadata = []))
       then Some (Text [isrc metadata])
  else None.

(** The tag that [set_metadata] leaves in a file that held [file]: the
    basic tags over what was there, and the cover when it could be
    fetched. *)
Definition tagged (metadata : track_info) (file : option (gmap string frame))
  : gmap string frame :=
  let basic := basic_tags metadata (default ∅ file) in
  match urlopen_art w (album_art metadata) with
  | Ok album_bytes => <["APIC" := cover album_bytes]> basic
  | Raise _ => basic
  end.

(** *** The main loop *)

(** [os.replace(src, dst)] *)
Definition os_replace (src dst : Py.str) : M state unit :=
  files <- gets fs ;;
  match files !! src with
  | None => raise (OtherError "FileNotFoundError")
  | Some file => set_fs (fun files => <[dst := file]> (delete src files))
  end.

(** [shutil.rmtree("../music/tmp", ignore_errors=True)] *)
Definition rmtree_tmp : M state unit :=
  set_fs (filter (fun kv => Py.startswith kv.1 (py "../music/tmp/") = false)).

(** One iteration of [for i, track_info in enumerate(songs, start=1)];
    the result is [downloaded_count]. *)
Definition process_song (total_songs i : nat) (track_info : track_info)
    (downloaded_count : nat) : M state nat :=
  let search_term :=
    artist_name track_info ++ py " " ++ track_title track_info ++ py " audio" in
  print (Searching i total_songs search_term) ;;
  found <- try_except (yt_link <- find_youtube search_term ;; ret (Some yt_link))
             (fun e => print (SearchFailed e) ;; ret None) ;;
  match found with
  | None => ret downloaded_count                         (* [continue] *)
  | Some yt_link =>
      print (Downloading (artist_name track_info) (track_title track_info)) ;;
      audio_path <- download_yt yt_link ;;
      match audio_path with
      | Some audio_path =>
          if bool_decide (audio_path = []) then print Skipped ;; ret downloaded_count
          else
            set_metadata track_info audio_path ;;
            let final_path := Py.join (py "../music") (Py.basename audio_path) in
            os_replace audio_path final_path ;;
            print Saved ;;
            ret (downloaded_count + 1)%nat
      | None => print Skipped ;; ret downloaded_count
      end
  end.

Fixpoint for_songs (total_songs i : nat) (songs : list track_info)
    (downloaded_count : nat) : M state nat :=
  match songs with
  | [] => ret downloaded_count
  | track_info :: rest =>
      downloaded_count <- process_song total_songs i track_info downloaded_count ;;
      for_songs total_songs (S i) rest downloaded_count
  end.

(** The list of songs for a validated URL. *)
Definition songs_of (fuel : nat) (url : Py.str) : option (res (list track_info)) :=
  if Py.contains (py "track") url then
    Some (match get_track_info url with
          | Ok track_metadata => Ok [track_metadata]
          | Raise e => Raise e
          end)
  else if Py.contains (py "playlist") url then get_playlist_info fuel url
  else Some (Raise (ValueError "URL must point to a Spotify 'track' or 'playlist'.")).

(** The body of the [try] in [main]; [None] when pagination did not end
    within [fuel] page fetches. *)
Definition main_try (fuel : nat) (s : state) : option (res unit * state) :=
  match input s with
  | (Raise e, s) => Some (Raise e, s)
  | (Ok line, s) =>
      let spotify_url := Py.strip line in
      match validate_spotify_url spotify_url with
      | Raise e => Some (Raise e, s)
      | Ok url =>
          match songs_of fuel url with
          | None => None
          | Some (Raise e) => Some (Raise e, s)
          | Some (Ok songs) =>
              let total_songs := length songs in
              Some ((downloaded_count <- for_songs total_songs 1 songs 0 ;;
                     rmtree_tmp ;;
                     print (Summary downloaded_count total_songs)) s)
          end
      end
  end.

(** [main]: the state it ends in. *)
Definition main (fuel : nat) (s : state) : option state :=
  match main_try fuel s with
  | None => None
  | Some (Ok _, s) => Some s
  | Some (Raise KeyboardInterrupt, s) => Some (after (print Canceled) s)
  | Some (Raise e, s) => Some (after (print (Error e)) s)
  end.

(** The track identifiers of a page that [resolve_items] looks up: those
    of the items that have a track with a non-empty identifier. *)
Fixpoint track_ids (items : list (option (option Py.str))) : list Py.str :=
  match items with
  | [] => []
  | Some (Some track_id) :: rest =>
      if bool_decide (track_id = []) then track_ids rest else track_id :: track_ids rest
  | _ :: rest => track_ids rest
  end.

(** The source serves the non-empty [pages] one after the other from
    [offset] on, each at the offset where the one before ended; the last
    of them announces no next page, or is followed by an empty page. *)
Fixpoint serves (playlist_url : Py.str) (offset : nat)
    (pages : list (list (option (option Py.str)))) : Prop :=
  match pages with
  | [] => exists more, sp_playlist_items w playlist_url offset
                       = Ok {| items := []; next := more |}
  | page :: rest =>
      page <> [] /\
      ((sp_playlist_items w playlist_url offset = Ok {| items := page; next := true |}
        /\ serves playlist_url (offset + length page)%nat rest)
       \/ (sp_playlist_items w playlist_url offset = Ok {| items := page; next := false |}
           /\ rest = []))
  end.

(** The file name [download_yt] gives to the video titled [title]. *)
Definition out_filename (title : Py.str) : Py.str :=
  filter (fun c => c ∉ invalid_filename_chars) title ++ py ".mp3".

End Run.

(** *** Vocabulary for the proofs *)

(** A computation keeps an invariant of the state, whether it returns
    or raises. *)
Definition keeps {A} (I : state -> Prop) (c : M state A) : Prop :=
  forall s, I s -> I (c s).2.

(** The console as the prompt sees it: the sticky decision and the
    lines not yet read. *)
Definition console (a : Py.str) (lines : list Py.str) (s : state) : Prop :=
  file_exists_action s = a /\ stdin s = lines.

End SpotifyDownloader.

(** ** Sample worlds *)

Module Samples.
Import SpotifyDownloader.

(** A catalog in which every track URL resolves, to a track named after
    its identifier. *)
Definition catalog_track (track_url : Py.str) : sp_track :=
  {| track_artists := [py "A"];
     track_name := drop 31 track_url;
     track_track_number := 1;
     external_isrc := None;
     album_images := [py "http://img/64"; py "http://img/300"];
     track_album_name := py "Album";
     album_release_date := py "2001" |}.

Definition playlist_url : Py.str := py "https://open.spotify.com/playlist/abc".

Definition three_tracks (offset : nat) : playlist_page :=
  if (offset =? 0)%nat
  then {| items := [Some (Some (py "One")); Some (Some (py "Two")); Some (Some (py "Six"))];
          next := false |}
  else {| items := []; next := false |}.

(** A result page that links one video, whose identifier is the first
    11 characters of the query. *)
Definition search_page (search_url : Py.str) : Py.str :=
  py "<a href=/watch?v=" ++ take 11 (drop 45 search_url) ++ py ">".

Definition search_up (search_url : Py.str) (attempt : nat) : res (res Py.str) :=
  Ok (Ok (search_page search_url)).

Definition search_down (search_url : Py.str) (attempt : nat) : res (res Py.str) :=
  Raise (OtherError "URLError").

Definition search_flaky (search_url : Py.str) (attempt : nat) : res (res Py.str) :=
  if (attempt <? 2)%nat then Raise (OtherError "URLError")
  else Ok (Ok (search_page search_url)).

(** A search that finds no video for the queries that mention [word]. *)
Definition search_misses (word : Py.str) (search_url : Py.str) (attempt : nat)
  : res (res Py.str) :=
  if Py.contains word search_url then Ok (Ok (py "<p>No results</p>"))
  else Ok (Ok (search_page search_url)).

Definition audio_up (yt_link : Py.str) : res (option (gmap string frame)) := Ok None.

Definition audio_fails_for (video : Py.str) (yt_link : Py.str)
  : res (option (gmap string frame)) :=
  if Py.contains video yt_link then Raise (OtherError "TranscodeError") else Ok None.

(** A failed transcoding leaves the raw download, named after the video. *)
Definition raw_download (yt_link : Py.str)
  : list (Py.str * option (gmap string frame)) :=
  [(drop 32 yt_link ++ py ".mp4", None)].

Definition online (status_code : nat) (public : bool)
    (search : Py.str -> nat -> res (res Py.str))
    (audio : Py.str -> res (option (gmap string frame))) : world :=
  {| requests_get := fun _ => Ok status_code;
     sp_track_api := fun track_url => Ok (catalog_track track_url);
     sp_playlist_public := fun _ => Ok public;
     sp_playlist_items := fun _ offset => Ok (three_tracks offset);
     urlopen_search := search;
     yt_title := fun yt_link => Ok (drop 32 yt_link);
     yt_audio := audio;
     yt_leftover := raw_download;
     urlopen_art := fun _ => Ok [255; 216; 255] |}.

(** A source that has the pages of [w] but, from [offset] on, keeps
    announcing a next page and returns no item. *)
Definition stuck_from (offset : nat) (w : world) : world :=
  {| requests_get := requests_get w;
     sp_track_api := sp_track_api w;
     sp_playlist_public := sp_playlist_public w;
     sp_playlist_items := fun playlist_url o =>
       if (offset <=? o)%nat then Ok {| items := []; next := true |}
       else match sp_playlist_items w playlist_url o with
            | Ok pl_tracks => Ok {| items := items pl_tracks; next := true |}
            | Raise e => Raise e
            end;
     urlopen_search := urlopen_search w;
     yt_title := yt_title w;
     yt_audio := yt_audio w;
     yt_leftover := yt_leftover w;
     urlopen_art := urlopen_art w |}.


(** The world [w] with an image host that is down. *)
Definition art_down (w : world) : world :=
  {| requests_get := requests_get w;
     sp_track_api := sp_track_api w;
     sp_playlist_public := sp_playlist_public w;
     sp_playlist_items := sp_playlist_items w;
     urlopen_search := urlopen_search w;
     yt_title := yt_title w;
     yt_audio := yt_audio w;
     yt_leftover := yt_leftover w;
     urlopen_art := fun _ => Raise (OtherError "HTTPError") |}.

(** The state a run starts in: nothing sticky, nothing printed. *)
Definition start (lines : list Py.str) (files : filesystem) : state :=
  {| file_exists_action := []; stdin := lines; fs := files; out := [] |}.

Definition song (title : Py.str) : track_info :=
  {| artist_name := py "A"; track_title := title; track_number := 1; isrc := [];
     album_art := py "http://img/300"; album_name := py "Album";
     release_date := py "2001"; artists := [py "A"] |}.

(** A record without an album name, and a downloaded file that already
    carries tags. *)
Definition no_album : track_info :=
  {| artist_name := py "A"; track_title := py "One"; track_number := 1; isrc := [];
     album_art := py "http://img/300"; album_name := [];
     release_date := py "2001"; artists := [py "A"] |}.

Definition staged_path : Py.str := py "../music/tmp/A+One+audio.mp3".

(** What MusicBrainz gave for a recording whose release has no date. *)
Definition mb_data : gmap string Py.str :=
  {[ "title" := py "Polonaise"; "artist" := py "[unknown]"; "album" := py "Works";
     "date" := []; "composer" := py "Chopin"; "genre" := py "Classical" ]}.


Definition mb_bare : AutoTagger.world :=
  {| AutoTagger.search_recordings := fun _ _ =>
       Ok [{| AutoTagger.recording_title := None;
              AutoTagger.artist_credit := [];
              AutoTagger.release_list := [] |}] |}.

Definition polonaise : Py.str := py "Chopin: Polonaise in G minor.mp3".

(** A folder with one file, tagged with an album and a track number only. *)
Definition old_tags : gmap string frame :=
  {[ "album" := Text [py "Old"]; "tracknumber" := Text [py "7"] ]}.

Definition staged : state := start [] {[ staged_path := Some old_tags ]}.

Definition library : AutoTagger.state :=
  {| AutoTagger.fs := {[ Py.join (py "music") polonaise := Some old_tags ]};
     AutoTagger.out := [] |}.

End Samples.

(** * Properties *)

(** ** Stripping *)

Section Strip.
Import Py.

Lemma lstrip_app (a b : str) :
  lstrip (a ++ b) = if bool_decide (lstrip a = []) then lstrip b else lstrip a ++ b.
Proof.
  induction a as [|c a IH]; simpl.
  - reflexivity.
  - destruct (isspace c); [exact IH | reflexivity].
Qed.

Lemma lstrip_spaces (ws t : str) :
  Forall (fun c => isspace c = true) ws -> lstrip (ws ++ t) = lstrip t.
Proof.
  induction 1 as [|c ws Hc _ IH]; simpl; [reflexivity|].
  rewrite Hc. exact IH.
Qed.

Lemma lstrip_split (s : str) :
  exists ws, Forall (fun c => isspace c = true) ws /\ s = ws ++ lstrip s.
Proof.
  induction s as [|c s [ws [Hws Hs]]]; simpl.
  - exists []. split; [constructor | reflexivity].
  - destruct (isspace c) eqn:Hc.
    + exists (c :: ws). split; [constructor; assumption|]. simpl. congruence.
    + exists []. split; [constructor | reflexivity].
Qed.

Lemma lstrip_idem (s : str) : lstrip (lstrip s) = lstrip s.
Proof.
  induction s as [|c s IH]; simpl; [reflexivity|].
  destruct (isspace c) eqn:Hc; [exact IH|]. simpl. rewrite Hc. reflexivity.
Qed.

Lemma rstrip_spaces (ws : str) :
  Forall (fun c => isspace c = true) ws -> rstrip ws = [].
Proof.
  intros H. unfold rstrip.
  assert (Hl : lstrip (reverse ws) = []).
  { rewrite <- (app_nil_r (reverse ws)). rewrite lstrip_spaces; [reflexivity|].
    apply Forall_reverse. exact H. }
  rewrite Hl. reflexivity.
Qed.

(** Trimming does not see the white space that [\s*] has consumed. *)
Lemma strip_lstrip (s : str) : strip (lstrip s) = strip s.
Proof.
  destruct (lstrip_split s) as [ws [Hws Hs]].
  unfold strip. rewrite Hs at 2. unfold rstrip.
  rewrite reverse_app, lstrip_app.
  case_bool_decide as Hnil.
  - (* nothing but white space is left *)
    rewrite Hnil. rewrite reverse_nil. simpl.
    fold (rstrip ws). rewrite (rstrip_spaces ws Hws). reflexivity.
  - rewrite reverse_app, reverse_involutive.
    rewrite lstrip_spaces by exact Hws. reflexivity.
Qed.

End Strip.

(** ** Heuristic filename parsing *)

Section Parse.
Import AutoTagger.

Lemma first_match_none (s : Py.str) :
  Forall (fun c => is_delim c = false) s -> first_match s = None.
Proof.
  induction 1 as [|c s Hc _ IH]; simpl; [reflexivity|].
  rewrite Hc, IH. reflexivity.
Qed.

Lemma first_match_split (left right : Py.str) (d : N) :
  Forall (fun c => is_delim c = false) left -> is_delim d = true ->
  first_match (left ++ d :: right) = Some (left, Py.lstrip right).
Proof.
  intros Hleft Hd. induction Hleft as [|c left Hc _ IH]; simpl.
  - rewrite Hd. reflexivity.
  - rewrite Hc, IH. reflexivity.
Qed.

(** After normalization no hyphen is left, so of the three delimiters
    only the two colons can match. *)
Lemma normalized_no_hyphen (s : Py.str) :
  Forall (fun c => c <> hyphen /\ c <> underscore)
    (Py.replace hyphen space (Py.replace underscore space s)).
Proof.
  unfold Py.replace. rewrite <- list_fmap_compose.
  apply Forall_fmap, Forall_forall. intros c _. simpl.
  destruct (N.eqb_spec c underscore) as [->|Hu]; simpl.
  - split; discriminate.
  - destruct (N.eqb_spec c hyphen) as [->|Hh]; [split; discriminate|].
    split; assumption.
Qed.

(** C3. Heuristic parsing removes the extension and turns underscores and
    hyphens into spaces; when no delimiter occurs the artist guess is
    "Unknown" and the title guess is the whole normalized name; otherwise
    the name is split at the first delimiter, the trimmed left segment is
    the artist guess (or "Unknown" if it has fewer than 2 characters) and
    the trimmed right segment is the title guess.  The two examples of the
    specification evaluate as stated. *)
Theorem parse_classical_filename_spec (filename : Py.str) :
  let name :=
    Py.replace hyphen space (Py.replace underscore space (Py.splitext filename).1) in
  let artist_of (segment : Py.str) :=
    if (length (Py.strip segment) <? 2)%nat then py "Unknown" else Py.strip segment in
  (Forall (fun c => is_delim c = false) name ->
     parse_classical_filename filename = (py "Unknown", name))
  /\ (forall (left right : Py.str) (d : N),
        name = left ++ d :: right ->
        Forall (fun c => is_delim c = false) left -> is_delim d = true ->
        parse_classical_filename filename = (artist_of left, Py.strip right))
  /\ parse_classical_filename (py "Chopin: Polonaise in G minor")
     = (py "Chopin", py "Polonaise in G minor")
  /\ parse_classical_filename (py "ab") = (py "Unknown", py "ab").
Proof.
  intros name artist_of. repeat split.
  - intros Hnone. unfold parse_classical_filename, re_split.
    fold name. rewrite (first_match_none name Hnone). reflexivity.
  - intros left right d Hname Hleft Hd.
    unfold parse_classical_filename, re_split. fold name.
    rewrite Hname, (first_match_split left right d Hleft Hd). simpl.
    rewrite strip_lstrip. reflexivity.
Qed.

Lemma parse_classical_filename_spec_witness :
  AutoTagger.parse_classical_filename (py "Bach_J.S.:  Air-on the G string.mp3")
  = (py "Bach J.S.", py "Air on the G string")
  /\ AutoTagger.parse_classical_filename (py "no_delimiter.mp3")
     = (py "Unknown", py "no delimiter").
Proof.
  split.
  - apply (proj1 (proj2 (parse_classical_filename_spec
              (py "Bach_J.S.:  Air-on the G string.mp3")))
             (py "Bach J.S.") (py "  Air on the G string") colon).
    + vm_compute. reflexivity.
    + vm_compute. repeat constructor.
    + vm_compute. reflexivity.
  - apply (proj1 (parse_classical_filename_spec (py "no_delimiter.mp3"))).
    vm_compute. repeat constructor.
Defined.

End Parse.

(** ** Search with retry *)

Section Retry.
Import SpotifyDownloader.
Variable w : world.

Lemma emit_emit (a b : list event) (s : state) : emit b (emit a s) = emit (a ++ b) s.
Proof. unfold emit. simpl. rewrite <- app_assoc. reflexivity. Qed.

Lemma retry_urlopen_fail (search_url : Py.str) (attempts : nat) (s : state) (e : exn) :
  (attempts < 3)%nat -> urlopen_search w search_url attempts = Raise e ->
  retry_urlopen w search_url attempts s
  = retry_urlopen w search_url (S attempts) (emit [Urlopen search_url; Sleep 1] s).
Proof.
  intros Hlt Hfail. rewrite retry_urlopen_equation_1.
  destruct (decide (attempts < 3)%nat) as [?|?]; [|lia].
  simpl. rewrite Hfail. simpl.
  change (after _ s) with (emit [Sleep 1] (emit [Urlopen search_url] s)).
  rewrite emit_emit. reflexivity.
Qed.

Lemma retry_urlopen_ok (search_url : Py.str) (attempts : nat) (s : state)
    (response : res Py.str) :
  (attempts < 3)%nat -> urlopen_search w search_url attempts = Ok response ->
  retry_urlopen w search_url attempts s = (Ok response, emit [Urlopen search_url] s).
Proof.
  intros Hlt Hok. rewrite retry_urlopen_equation_1.
  destruct (decide (attempts < 3)%nat) as [?|?]; [|lia].
  simpl. rewrite Hok. reflexivity.
Qed.

Lemma retry_urlopen_exhausted (search_url : Py.str) (s : state) :
  retry_urlopen w search_url 3 s
  = (Raise (ValueError "Failed to reach YouTube. Check internet connection."), s).
Proof. rewrite retry_urlopen_equation_1. reflexivity. Qed.

(** C5. A search whose transport fails on every attempt makes exactly
    three attempts, sleeps one second after each, and then raises the
    error that YouTube could not be reached; a search whose transport
    answers on attempt [k] (after [k] failures, [k < 3]) makes no further
    attempt. *)
Theorem find_youtube_retry (query : Py.str) (s : state) :
  let search_url :=
    py "https://www.youtube.com/results?search_query=" ++ Py.replace 32 43 query in
  ((forall n, exists e, urlopen_search w search_url n = Raise e) ->
   find_youtube w query s
   = (Raise (ValueError "Failed to reach YouTube. Check internet connection."),
      emit [Urlopen search_url; Sleep 1;
            Urlopen search_url; Sleep 1;
            Urlopen search_url; Sleep 1] s))
  /\ (forall (k : nat) (response : res Py.str),
        (k < 3)%nat ->
        (forall n, (n < k)%nat -> exists e, urlopen_search w search_url n = Raise e) ->
        urlopen_search w search_url k = Ok response ->
        after (find_youtube w query) s
        = emit (concat (replicate k [Urlopen search_url; Sleep 1]) ++ [Urlopen search_url]) s).
Proof.
  intros search_url. split.
  - intros Hfail. unfold find_youtube, bind. fold search_url.
    destruct (Hfail 0%nat) as [e0 H0], (Hfail 1%nat) as [e1 H1], (Hfail 2%nat) as [e2 H2].
    rewrite (retry_urlopen_fail _ _ _ e0), (retry_urlopen_fail _ _ _ e1),
      (retry_urlopen_fail _ _ _ e2), retry_urlopen_exhausted by (lia || assumption).
    rewrite !emit_emit. reflexivity.
  - intros k response Hk Hfail Hok.
    assert (Hgen : forall j (t : state), (j <= k)%nat ->
              retry_urlopen w search_url (k - j) t
              = (Ok response,
                 emit (concat (replicate j [Urlopen search_url; Sleep 1])
                         ++ [Urlopen search_url]) t)).
    { induction j as [|j IH]; intros t Hj.
      - rewrite Nat.sub_0_r. apply retry_urlopen_ok; assumption.
      - destruct (Hfail (k - S j)%nat) as [e He]; [lia|].
        rewrite (retry_urlopen_fail _ _ _ e) by (lia || assumption).
        replace (S (k - S j)) with (k - j)%nat by lia.
        rewrite IH by lia. rewrite emit_emit. reflexivity. }
    specialize (Hgen k s (le_n k)). rewrite Nat.sub_diag in Hgen.
    unfold after, find_youtube, bind. fold search_url. rewrite Hgen.
    unfold lift. destruct response as [search_html|e]; [|reflexivity].
    destruct (findall_watch 0 search_html); reflexivity.
Qed.

End Retry.

Lemma find_youtube_retry_witness :
  let down := Samples.online 200 true Samples.search_down Samples.audio_up in
  let flaky := Samples.online 200 true Samples.search_flaky Samples.audio_up in
  let s := Samples.start [] ∅ in
  let search_url := py "https://www.youtube.com/results?search_query=A+One+audio" in
  SpotifyDownloader.find_youtube down (py "A One audio") s
  = (Raise (ValueError "Failed to reach YouTube. Check internet connection."),
     SpotifyDownloader.emit
       [SpotifyDownloader.Urlopen search_url; SpotifyDownloader.Sleep 1;
        SpotifyDownloader.Urlopen search_url; SpotifyDownloader.Sleep 1;
        SpotifyDownloader.Urlopen search_url; SpotifyDownloader.Sleep 1] s)
  /\ after (SpotifyDownloader.find_youtube flaky (py "A One audio")) s
     = SpotifyDownloader.emit
         [SpotifyDownloader.Urlopen search_url; SpotifyDownloader.Sleep 1;
          SpotifyDownloader.Urlopen search_url; SpotifyDownloader.Sleep 1;
          SpotifyDownloader.Urlopen search_url] s.
Proof.
  intros down flaky s search_url. split.
  - apply (proj1 (find_youtube_retry down (py "A One audio") s)).
    intros n. exists (OtherError "URLError"). reflexivity.
  - apply (proj2 (find_youtube_retry flaky (py "A One audio") s) 2%nat
             (Ok (Samples.search_page search_url))).
    + lia.
    + intros n Hn. exists (OtherError "URLError").
      destruct n as [|[|n]]; [reflexivity | reflexivity | lia].
    + reflexivity.
Defined.

(** ** The sticky conflict decision *)

Section Sticky.
Import SpotifyDownloader.
Variable w : world.







Lemma console_emit a lines es s : console a lines s -> console a lines (emit es s).
Proof. intros H. exact H. Qed.
















End Sticky.


(** ** Pagination *)

Section Pagination.
Import SpotifyDownloader.
Variable w : world.




Lemma resolve_items_app (items more : list (option (option Py.str)))
    (tracks_info : list track_info) :
  resolve_items w (items ++ more) tracks_info
  = match resolve_items w items tracks_info with
    | Ok tracks_info => resolve_items w more tracks_info
    | Raise e => Raise e
    end.
Proof.
  revert tracks_info. induction items as [|[[track_id|]|] items IH]; intros tracks_info;
    simpl; try apply IH.
  - destruct (resolve_items w more tracks_info); reflexivity.
  - case_bool_decide; [apply IH|].
    destruct (get_track_info w _); [apply IH | reflexivity].
Qed.

Lemma paginate_serves (playlist_url : Py.str)
    (pages : list (list (option (option Py.str)))) :
  forall (offset fuel : nat) (tracks_info : list track_info),
    serves w playlist_url offset pages ->
    paginate w (S (length pages) + fuel) playlist_url offset tracks_info
    = Some (resolve_items w (concat pages) tracks_info).
Proof.
  induction pages as [|page rest IH]; intros offset fuel tracks_info Hserves.
  - destruct Hserves as [more Hpage]. simpl. rewrite Hpage. reflexivity.
  - destruct Hserves as [Hne [[Hpage Hrest] | [Hpage ->]]];
      cbn [paginate concat length Nat.add]; rewrite Hpage; cbn [items next];
      rewrite bool_decide_eq_false_2 by exact Hne; rewrite resolve_items_app.
    + destruct (resolve_items w page tracks_info) as [resolved|e]; [|reflexivity].
      simpl negb. cbv iota. apply (IH _ fuel). exact Hrest.
    + destruct (resolve_items w page tracks_info) as [resolved|e]; reflexivity.
Qed.



End Pagination.



(** ** Resolving the reference *)

Section Resolve.
Import SpotifyDownloader.
Variable w : world.


End Resolve.

(** C10. The dispatch looks for "track" anywhere in the URL before it
    looks for "playlist": a URL that contains "track" is resolved as one
    track.  The URL of the playlist [mytrackmix] is valid, and the run
    resolves it as a single track; where the catalog holds that playlist
    with three tracks, the run has one song and not three. *)
Theorem track_dispatch_shadows_playlist :
  (forall (w : SpotifyDownloader.world) (fuel : nat) (url : Py.str),
     Py.contains (py "track") url = true ->
     SpotifyDownloader.songs_of w fuel url
     = Some (match SpotifyDownloader.get_track_info w url with
             | Ok track_metadata => Ok [track_metadata]
             | Raise e => Raise e
             end))
  /\ exists identifier : Py.str,
       let url := py "https://open.spotify.com/playlist/" ++ identifier in
       Py.contains (py "track") identifier = true
       /\ SpotifyDownloader.validate_spotify_url url = Ok url
       /\ (forall (w : SpotifyDownloader.world) (fuel : nat),
             SpotifyDownloader.songs_of w fuel url
             = Some (match SpotifyDownloader.get_track_info w url with
                     | Ok track_metadata => Ok [track_metadata]
                     | Raise e => Raise e
                     end))
       /\ (let w := Samples.online 200 true Samples.search_up Samples.audio_up in
           (exists songs, SpotifyDownloader.get_playlist_info w 1 url = Some (Ok songs)
                          /\ length songs = 3%nat)
           /\ (exists songs, SpotifyDownloader.songs_of w 1 url = Some (Ok songs)
                             /\ length songs = 1%nat)).
Proof.
  split.
  - intros w fuel url Htrack. unfold SpotifyDownloader.songs_of. rewrite Htrack. reflexivity.
  - exists (py "mytrackmix"). repeat split.
    + eexists. split; [vm_compute; reflexivity | reflexivity].
    + eexists. split; [vm_compute; reflexivity | reflexivity].
Qed.

Lemma track_dispatch_shadows_playlist_witness :
  let w := Samples.online 200 true Samples.search_up Samples.audio_up in
  let url := py "https://open.spotify.com/playlist/mytrackmix" in
  SpotifyDownloader.songs_of w 1 url
  = Some (match SpotifyDownloader.get_track_info w url with
          | Ok track_metadata => Ok [track_metadata]
          | Raise e => Raise e
          end).
Proof.
  intros w url. apply (proj1 track_dispatch_shadows_playlist w 1%nat url).
  vm_compute. reflexivity.
Defined.

(** ** Files without a MusicBrainz match *)

Section Unmatched.
Import AutoTagger.
Variable w : world.




End Unmatched.



(** ** Tag writing *)


Section TaggerWrites.
Import AutoTagger.

Lemma store_if_present_lookup (mb_data : gmap string Py.str) (field : string)
    (audio : gmap string frame) (key : string) :
  store_if_present mb_data field field audio !! key
  = if bool_decide (field = key) then
      match mb_data !! field with
      | Some val =>
          if bool_decide (val = []) then audio !! key
          else Some (Text [normalize_unknown val])
      | None => audio !! key
      end
    else audio !! key.
Proof.
  unfold store_if_present, normalize_unknown.
  destruct (mb_data !! field) as [val|]; [|case_bool_decide; reflexivity].
  destruct (bool_decide (val = [])); [case_bool_decide; reflexivity|].
  case_bool_decide as Hkey.
  - subst key. apply lookup_insert_eq.
  - apply lookup_insert_ne. exact Hkey.
Qed.

Lemma store_if_present_other (mb_data : gmap string Py.str) (field key : string)
    (audio : gmap string frame) :
  field <> key -> store_if_present mb_data field field audio !! key = audio !! key.
Proof.
  intros Hne. rewrite store_if_present_lookup.
  rewrite bool_decide_eq_false_2 by exact Hne. reflexivity.
Qed.

Lemma store_fields_lookup (mb_data : gmap string Py.str) (audio : gmap string frame)
    (key : string) :
  store_fields mb_data audio !! key
  = match written mb_data key with
    | Some val => Some (Text [normalize_unknown val])
    | None => audio !! key
    end.
Proof.
  unfold store_fields, written.
  destruct (decide (key ∈ tag_fields)) as [Hin|Hout].
  - rewrite bool_decide_eq_true_2 by exact Hin.
    unfold tag_fields in Hin. rewrite !elem_of_cons, elem_of_nil in Hin.
    repeat (destruct Hin as [->|Hin]; [
      rewrite ?store_if_present_other by discriminate;
      rewrite store_if_present_lookup, bool_decide_eq_true_2 by reflexivity;
      match goal with
      | |- context [mb_data !! ?k] => destruct (mb_data !! k) as [val|]
      end;
      [destruct (bool_decide (val = []))|];
      rewrite ?store_if_present_other by discriminate; reflexivity |]).
    contradiction.
  - rewrite bool_decide_eq_false_2 by exact Hout.
    rewrite !store_if_present_other; [reflexivity|..];
      intros <-; apply Hout; unfold tag_fields; set_solver.
Qed.

(** The files after [set_id3_tags]: the named file, if there is one, holds
    the container it had (an empty one if it had none) with the fields
    stored; whether the summary could be printed does not matter. *)
Lemma set_id3_tags_fs (filepath : Py.str) (mb_data : gmap string Py.str) (s : state) :
  fs (after (set_id3_tags filepath mb_data) s)
  = match fs s !! filepath with
    | Some file => <[filepath := Some (store_fields mb_data (default ∅ file))]> (fs s)
    | None => fs s
    end.
Proof.
  unfold after, set_id3_tags, try_except, bind at 1, open_or_init, EasyID3.
  destruct (fs s !! filepath) as [[tags|]|] eqn:Hfile; simpl.
  - fold (store_fields mb_data tags).
    unfold bind, write_file, modify, lift, print. simpl.
    repeat (match goal with
            | |- context [first_value ?a ?k] => destruct (first_value a k)
            end; simpl);
      try match goal with |- context [is_Exception ?e] => destruct e end; reflexivity.
  - unfold bind at 1, write_file at 1, modify at 1. simpl.
    unfold lift at 1, EasyID3. simpl. rewrite lookup_insert_eq.
    fold (store_fields mb_data ∅).
    unfold bind, write_file, modify, lift, print. simpl.
    repeat (match goal with
            | |- context [first_value ?a ?k] => destruct (first_value a k)
            end; simpl);
      try match goal with |- context [is_Exception ?e] => destruct e end;
      simpl; rewrite insert_insert_eq; reflexivity.
  - reflexivity.
Qed.

Lemma set_id3_tags_field (filepath : Py.str) (mb_data : gmap string Py.str) (s : state)
    (key : string) :
  field_at (fs (after (set_id3_tags filepath mb_data) s)) filepath key
  = match fs s !! filepath with
    | Some file =>
        match written mb_data key with
        | Some val => Some (Text [normalize_unknown val])
        | None => field_of file key
        end
    | None => None
    end.
Proof.
  rewrite set_id3_tags_fs. unfold field_at.
  destruct (fs s !! filepath) as [file|] eqn:Hfile; [|rewrite Hfile; reflexivity].
  rewrite lookup_insert_eq. simpl. rewrite store_fields_lookup.
  destruct (written mb_data key); [reflexivity|].
  destruct file; reflexivity.
Qed.


End TaggerWrites.

Section DownloaderWrites.
Import SpotifyDownloader.
Variable w : world.

Lemma basic_tags_lookup (metadata : track_info) (audiofile : gmap string frame)
    (key : string) :
  basic_tags metadata audiofile !! key
  = match written_basic metadata key with
    | Some f => Some f
    | None => audiofile !! key
    end.
Proof.
  unfold basic_tags, written_basic.
  destruct (bool_decide (isrc metadata = [])); simpl;
    repeat (case_bool_decide;
            [subst key; simpl; rewrite ?lookup_insert_ne by discriminate;
             rewrite lookup_insert_eq; reflexivity|]);
    rewrite ?andb_false_r; simpl; rewrite !lookup_insert_ne by congruence; reflexivity.
Qed.

Lemma set_metadata_fs (metadata : track_info) (file_path : Py.str) (s : state) :
  fs (after (set_metadata w metadata file_path) s)
  = match fs s !! file_path with
    | Some file => <[file_path := Some (tagged w metadata file)]> (fs s)
    | None => fs s
    end.
Proof.
  unfold after, set_metadata, tagged.
  fold (basic_tags metadata).
  unfold bind, open_or_init, EasyID3, set_fs, modify, gets, lift, bind.
  destruct (fs s !! file_path) as [[tags|]|] eqn:Hfile; simpl.
  - unfold EasyID3. simpl. rewrite lookup_insert_eq.
    destruct (urlopen_art w (album_art metadata)); simpl; [|reflexivity].
    rewrite insert_insert_eq. reflexivity.
  - unfold EasyID3. simpl. rewrite lookup_insert_eq. simpl.
    rewrite lookup_insert_eq.
    destruct (urlopen_art w (album_art metadata)); simpl;
      rewrite !insert_insert_eq; reflexivity.
  - reflexivity.
Qed.

Lemma tagged_lookup (metadata : track_info) (file : option (gmap string frame))
    (key : string) :
  key <> "APIC"%string ->
  tagged w metadata file !! key
  = match written_basic metadata key with
    | Some f => Some f
    | None => field_of file key
    end.
Proof.
  intros Hkey. unfold tagged.
  destruct (urlopen_art w (album_art metadata));
    rewrite ?lookup_insert_ne by congruence; rewrite basic_tags_lookup;
    destruct (written_basic metadata key); try reflexivity; destruct file; reflexivity.
Qed.



Lemma set_metadata_field (metadata : track_info) (file_path : Py.str) (s : state)
    (key : string) :
  key <> "APIC"%string ->
  field_at (fs (after (set_metadata w metadata file_path) s)) file_path key
  = match fs s !! file_path with
    | Some file =>
        match written_basic metadata key with
        | Some f => Some f
        | None => field_of file key
        end
    | None => None
    end.
Proof.
  intros Hkey. rewrite set_metadata_fs. unfold field_at.
  destruct (fs s !! file_path) as [file|] eqn:Hfile; [|rewrite Hfile; reflexivity].
  rewrite lookup_insert_eq. simpl. apply tagged_lookup. exact Hkey.
Qed.

End DownloaderWrites.

(** C8, as the code has it.  [set_id3_tags] writes a field only when the
    record has a value for it that is not empty, and leaves every other
    field of the file as it was.  [set_metadata] guards the ISRC alone in
    that way: it always writes the album artist, the artists, the album,
    the title, the date and the track number with the values of the
    record, whatever they are, writes the ISRC when it is not empty, and
    leaves every field other than these and the cover as it was. *)
Theorem tag_writers_frame (key : string) :
  (forall (filepath : Py.str) (mb_data : gmap string Py.str) (s : AutoTagger.state),
     let s' := after (AutoTagger.set_id3_tags filepath mb_data) s in
     (AutoTagger.written mb_data key = None ->
      field_at (AutoTagger.fs s') filepath key = field_at (AutoTagger.fs s) filepath key)
     /\ (forall val,
           AutoTagger.written mb_data key = Some val ->
           is_Some (AutoTagger.fs s !! filepath) ->
           field_at (AutoTagger.fs s') filepath key
           = Some (Text [AutoTagger.normalize_unknown val])))
  /\ (forall (w : SpotifyDownloader.world) (metadata : SpotifyDownloader.track_info)
        (file_path : Py.str) (s : SpotifyDownloader.state),
        let s' := after (SpotifyDownloader.set_metadata w metadata file_path) s in
        (key ∉ SpotifyDownloader.basic_fields -> key <> "APIC"%string ->
         (key = "isrc"%string -> SpotifyDownloader.isrc metadata = []) ->
         field_at (SpotifyDownloader.fs s') file_path key
         = field_at (SpotifyDownloader.fs s) file_path key)
        /\ (forall f,
              SpotifyDownloader.written_basic metadata key = Some f ->
              is_Some (SpotifyDownloader.fs s !! file_path) ->
              field_at (SpotifyDownloader.fs s') file_path key = Some f)).
Proof.
  split.
  - intros filepath mb_data s s'. unfold s'. split.
    + intros Hnone. rewrite set_id3_tags_field, Hnone. unfold field_at.
      destruct (AutoTagger.fs s !! filepath); reflexivity.
    + intros val Hval [file Hfile]. rewrite set_id3_tags_field, Hfile, Hval. reflexivity.
  - intros w metadata file_path s s'. unfold s'. split.
    + intros Hbasic Hapic Hisrc. rewrite set_metadata_field by exact Hapic.
      assert (SpotifyDownloader.written_basic metadata key = None) as ->.
      { unfold SpotifyDownloader.written_basic.
        unfold SpotifyDownloader.basic_fields in Hbasic.
        rewrite !elem_of_cons, elem_of_nil in Hbasic.
        repeat (case_bool_decide; [exfalso; apply Hbasic; tauto|]).
        case_bool_decide as Hk; [|reflexivity].
        rewrite (Hisrc Hk). reflexivity. }
      unfold field_at. destruct (SpotifyDownloader.fs s !! file_path); reflexivity.
    + intros f Hf [file Hfile].
      assert (Hapic : key <> "APIC"%string).
      { intros ->. vm_compute in Hf.
        destruct (decide (SpotifyDownloader.isrc metadata = [])); discriminate. }
      rewrite set_metadata_field by exact Hapic. rewrite Hfile, Hf. reflexivity.
Qed.

Lemma tag_writers_frame_witness :
  let path := Py.join (py "music") Samples.polonaise in
  let s1 := after (AutoTagger.set_id3_tags path Samples.mb_data) Samples.library in
  let w := Samples.online 200 true Samples.search_up Samples.audio_up in
  let s2 := after (SpotifyDownloader.set_metadata w Samples.no_album Samples.staged_path)
              Samples.staged in
  field_at (AutoTagger.fs s1) path "date" = None
  /\ field_at (AutoTagger.fs s1) path "tracknumber" = Some (Text [py "7"])
  /\ field_at (AutoTagger.fs s1) path "artist" = Some (Text [py "Unknown"])
  /\ field_at (SpotifyDownloader.fs s2) Samples.staged_path "isrc" = None
  /\ field_at (SpotifyDownloader.fs s2) Samples.staged_path "title" = Some (Text [py "One"]).
Proof.
  intros path s1 w s2. split; [|split; [|split; [|split]]].
  - apply (proj1 (proj1 (tag_writers_frame "date") path Samples.mb_data Samples.library)).
    vm_compute. reflexivity.
  - apply (proj1 (proj1 (tag_writers_frame "tracknumber") path Samples.mb_data
                    Samples.library)).
    vm_compute. reflexivity.
  - apply (proj2 (proj1 (tag_writers_frame "artist") path Samples.mb_data Samples.library)
             (py "[unknown]")).
    + vm_compute. reflexivity.
    + eexists. vm_compute. reflexivity.
  - apply (proj1 (proj2 (tag_writers_frame "isrc") w Samples.no_album Samples.staged_path
                    Samples.staged)).
    + unfold SpotifyDownloader.basic_fields. rewrite !elem_of_cons, elem_of_nil.
      intros H. repeat (destruct H as [H|H]; [discriminate|]). exact H.
    + discriminate.
    + reflexivity.
  - apply (proj2 (proj2 (tag_writers_frame "title") w Samples.no_album Samples.staged_path
                    Samples.staged) (Text [py "One"])).
    + vm_compute. reflexivity.
    + eexists. vm_compute. reflexivity.
Defined.

(** C8, as the specification states it, fails for [set_metadata]: the
    record has an empty album name, the file had the album "Old", and
    after the write the album of the file is the empty string. *)
Lemma empty_album_overwrites :
  let w := Samples.online 200 true Samples.search_up Samples.audio_up in
  let s' := after (SpotifyDownloader.set_metadata w Samples.no_album Samples.staged_path)
              Samples.staged in
  SpotifyDownloader.album_name Samples.no_album = []
  /\ field_at (SpotifyDownloader.fs Samples.staged) Samples.staged_path "album"
     = Some (Text [py "Old"])
  /\ field_at (SpotifyDownloader.fs s') Samples.staged_path "album" = Some (Text [[]])
  /\ field_at (SpotifyDownloader.fs s') Samples.staged_path "album"
     <> field_at (SpotifyDownloader.fs Samples.staged) Samples.staged_path "album".
Proof.
  repeat split; try (vm_compute; reflexivity). vm_compute. discriminate.
Qed.


(** The values are written, not appended: after two writes the artist
    field of the sample file holds one value. *)
Example second_write_does_not_append :
  let path := Py.join (py "music") Samples.polonaise in
  let write := AutoTagger.set_id3_tags path Samples.mb_data in
  field_at (AutoTagger.fs (after write (after write Samples.library))) path "artist"
  = Some (Text [py "Unknown"]).
Proof. vm_compute. reflexivity. Qed.

(** ** Failures of one song *)

Section Isolation.
Import SpotifyDownloader.
Variable w : world.

(** X20. A failed search is caught: the song is given up, the count is as it
    was, and the loop goes on with the next song. *)
Lemma search_failure_is_caught (total_songs i downloaded_count : nat)
    (track_info : track_info) (s s1 : state) (e : exn) :
  let search_term :=
    artist_name track_info ++ py " " ++ track_title track_info ++ py " audio" in
  find_youtube w search_term (emit [Searching i total_songs search_term] s) = (Raise e, s1) ->
  is_Exception e = true ->
  process_song w total_songs i track_info downloaded_count s
  = (Ok downloaded_count, emit [SearchFailed e] s1)
  /\ forall rest,
       for_songs w total_songs i (track_info :: rest) downloaded_count s
       = for_songs w total_songs (S i) rest downloaded_count (emit [SearchFailed e] s1).
Proof.
  intros search_term Hsearch Hexn.
  assert (Hsong : process_song w total_songs i track_info downloaded_count s
                  = (Ok downloaded_count, emit [SearchFailed e] s1)).
  { unfold process_song. fold search_term.
    unfold bind at 1. unfold print at 1, modify. simpl.
    unfold bind at 1, try_except. unfold bind at 1. rewrite Hsearch, Hexn. reflexivity. }
  split; [exact Hsong|].
  intros rest. simpl. unfold bind at 1. rewrite Hsong. reflexivity.
Qed.

End Isolation.

(** A run over three songs in which the search for the second finds
    nothing: the summary reports 2 of 3, and the first and the third song
    are saved with their tags. *)
Example search_failure_is_isolated :
  let w := Samples.online 200 true (Samples.search_misses (py "Two")) Samples.audio_up in
  exists s',
    SpotifyDownloader.main w 1 (Samples.start [Samples.playlist_url] ∅) = Some s'
    /\ last (SpotifyDownloader.out s') = Some (SpotifyDownloader.Summary 2 3)
    /\ SpotifyDownloader.SearchFailed (ValueError "No YouTube results found for query.")
       ∈ SpotifyDownloader.out s'
    /\ field_at (SpotifyDownloader.fs s') (py "../music/A+One+audio.mp3") "title"
       = Some (Text [py "One"])
    /\ field_at (SpotifyDownloader.fs s') (py "../music/A+Six+audio.mp3") "title"
       = Some (Text [py "Six"]).
Proof.
  intros w. eexists. split; [vm_compute; reflexivity|].
  repeat split; try (vm_compute; reflexivity).
  apply list_elem_of_In. vm_compute. tauto.
Qed.

(** C1, where the code departs from it.  In a run over three songs the
    transcoding of the second fails: the exception leaves the loop, the
    run prints the error and ends; the third song is never searched, no
    summary is printed, and the raw download of the second song stays in
    the scratch folder.  The same happens when the cover of the first
    song cannot be fetched while its tags are written: the run ends
    there, with the half-tagged file left in the scratch folder. *)
Theorem download_failure_aborts_run :
  let w := Samples.online 200 true Samples.search_up (Samples.audio_fails_for (py "Two")) in
  let w' := Samples.art_down (Samples.online 200 true Samples.search_up Samples.audio_up) in
  let s := Samples.start [Samples.playlist_url] ∅ in
  (exists s',
     SpotifyDownloader.main w 1 s = Some s'
     /\ SpotifyDownloader.out s'
        = [SpotifyDownloader.Input;
           SpotifyDownloader.Searching 1 3 (py "A One audio");
           SpotifyDownloader.Urlopen
             (py "https://www.youtube.com/results?search_query=A+One+audio");
           SpotifyDownloader.Downloading (py "A") (py "One");
           SpotifyDownloader.Saved;
           SpotifyDownloader.Searching 2 3 (py "A Two audio");
           SpotifyDownloader.Urlopen
             (py "https://www.youtube.com/results?search_query=A+Two+audio");
           SpotifyDownloader.Downloading (py "A") (py "Two");
           SpotifyDownloader.Error (OtherError "TranscodeError")]
     /\ (map_to_list (SpotifyDownloader.fs s')).*1
        = [py "../music/tmp/A+Two+audio.mp4"; py "../music/A+One+audio.mp3"])
  /\ (exists s',
        SpotifyDownloader.main w' 1 s = Some s'
        /\ SpotifyDownloader.out s'
           = [SpotifyDownloader.Input;
              SpotifyDownloader.Searching 1 3 (py "A One audio");
              SpotifyDownloader.Urlopen
                (py "https://www.youtube.com/results?search_query=A+One+audio");
              SpotifyDownloader.Downloading (py "A") (py "One");
              SpotifyDownloader.Error (OtherError "HTTPError")]
        /\ (map_to_list (SpotifyDownloader.fs s')).*1 = [py "../music/tmp/A+One+audio.mp3"]).
Proof.
  intros w w' s. split.
  - eexists. split; [vm_compute; reflexivity|]. split; vm_compute; reflexivity.
  - eexists. split; [vm_compute; reflexivity|]. split; vm_compute; reflexivity.
Qed.

(** * Further properties *)

(** ** Prefixes and substrings *)

Lemma startswith_app (p r : Py.str) : Py.startswith (p ++ r) p = true.
Proof.
  induction p as [|c p IH]; simpl; [destruct r; reflexivity|].
  rewrite N.eqb_refl. exact IH.
Qed.

Lemma startswith_drop (s p : Py.str) :
  Py.startswith s p = true -> s = p ++ drop (length p) s.
Proof.
  revert s. induction p as [|c p IH]; intros s H.
  - reflexivity.
  - destruct s as [|x s]; [discriminate|]. simpl in H.
    apply andb_true_iff in H as [Hx Hp]. apply N.eqb_eq in Hx. subst x.
    simpl. f_equal. apply IH. exact Hp.
Qed.

Lemma startswith_iff (s p : Py.str) :
  Py.startswith s p = true <-> exists r, s = p ++ r.
Proof.
  split.
  - intros H. exists (drop (length p) s). apply startswith_drop. exact H.
  - intros [r ->]. apply startswith_app.
Qed.

Lemma contains_here (needle rest : Py.str) : Py.contains needle (needle ++ rest) = true.
Proof.
  pose proof (startswith_app needle rest) as H.
  destruct (needle ++ rest); simpl in *; rewrite H; reflexivity.
Qed.

Lemma contains_later (needle before hay : Py.str) :
  Py.contains needle hay = true -> Py.contains needle (before ++ hay) = true.
Proof.
  intros H. induction before as [|c before IH]; simpl; [exact H|].
  rewrite IH. apply orb_true_r.
Qed.

Lemma contains_middle (needle before rest : Py.str) :
  Py.contains needle (before ++ needle ++ rest) = true.
Proof. apply contains_later, contains_here. Qed.

Lemma endswith_iff (s : Py.str) (c : N) :
  Py.endswith s [c] = true <-> exists b, s = b ++ [c].
Proof.
  unfold Py.endswith. rewrite startswith_iff. split.
  - intros [r Hr]. exists (reverse r).
    rewrite <- (reverse_involutive s), Hr. rewrite reverse_app. reflexivity.
  - intros [b ->]. exists (reverse b). rewrite reverse_app. reflexivity.
Qed.

(** ** Which URLs are accepted *)

Section Urls.
Import SpotifyDownloader.

Lemma forallb_Forall {A} (f : A -> bool) (l : list A) :
  forallb f l = true <-> Forall (fun x => f x = true) l.
Proof.
  induction l as [|x l IH]; simpl.
  - split; [constructor | reflexivity].
  - rewrite andb_true_iff, IH. split.
    + intros [Hx Hl]. constructor; assumption.
    + intros H. inversion H; subst. split; assumption.
Qed.

Lemma dot_plus_end_iff (s : Py.str) :
  dot_plus_end s = true <->
  exists body tail,
    s = body ++ tail /\ body <> [] /\ Forall (fun c => c <> newline) body
    /\ (tail = [] \/ tail = [newline]).
Proof.
  assert (Hbody : forall body,
            negb (bool_decide (body = []))
            && forallb (fun c => negb (c =? newline)) body = true
            <-> body <> [] /\ Forall (fun c => c <> newline) body).
  { intros body. rewrite andb_true_iff, negb_true_iff, bool_decide_eq_false, forallb_Forall.
    split; intros [H1 H2]; (split; [exact H1|]);
      eapply Forall_impl; try exact H2; intros c Hc; simpl in *.
    - apply negb_true_iff, N.eqb_neq in Hc. exact Hc.
    - apply negb_true_iff, N.eqb_neq. exact Hc. }
  unfold dot_plus_end. split.
  - intros H. destruct (Py.endswith s [newline]) eqn:Hend.
    + apply endswith_iff in Hend as [b ->].
      rewrite length_app in H. simpl in H.
      replace (length b + 1 - 1)%nat with (length b) in H by lia.
      rewrite take_app_length in H. apply Hbody in H as [H1 H2].
      exists b, [newline]. repeat split; try assumption. right. reflexivity.
    + apply Hbody in H as [H1 H2]. exists s, []. rewrite app_nil_r.
      repeat split; try assumption. left. reflexivity.
  - intros (body & tail & -> & Hne & Hall & [-> | ->]).
    + rewrite app_nil_r.
      destruct (Py.endswith body [newline]) eqn:Hend.
      * apply endswith_iff in Hend as [b ->].
        apply Forall_app in Hall as [_ Hlast]. inversion Hlast; subst. contradiction.
      * apply Hbody. split; assumption.
    + assert (Py.endswith (body ++ [newline]) [newline] = true) as ->
        by (apply endswith_iff; eexists; reflexivity).
      rewrite length_app. simpl.
      replace (length body + 1 - 1)%nat with (length body) by lia.
      rewrite take_app_length. apply Hbody. split; assumption.
Qed.

Lemma host_and_path_iff (t : Py.str) :
  host_and_path t = true <->
  exists kind rest,
    (kind = py "playlist" \/ kind = py "track")
    /\ t = py "open.spotify.com/" ++ kind ++ py "/" ++ rest
    /\ dot_plus_end rest = true.
Proof.
  unfold host_and_path. rewrite andb_true_iff, orb_true_iff, !andb_true_iff.
    split.
    - intros [Hh [[Hk Hd] | [Hk Hd]]]; apply startswith_drop in Hh, Hk.
      + exists (py "playlist"), (drop 9 (drop 17 t)). split; [left; reflexivity|].
        split; [|exact Hd]. etransitivity; [exact Hh|]. f_equal.
        etransitivity; [exact Hk|]. reflexivity.
      + exists (py "track"), (drop 6 (drop 17 t)). split; [right; reflexivity|].
        split; [|exact Hd]. etransitivity; [exact Hh|]. f_equal.
        etransitivity; [exact Hk|]. reflexivity.
    - intros (kind & rest & [-> | ->] & -> & Hd).
      + split; [reflexivity|]. left.
        split; [exact (startswith_app (py "playlist/") rest) | exact Hd].
      + split; [reflexivity|]. right.
        split; [exact (startswith_app (py "track/") rest) | exact Hd].
Qed.

(** X1. The pattern accepts exactly the strings made of an optional
    ["http://"] or ["https://"], the host, ["playlist"] or ["track"], a
    slash and a non-empty rest without a newline, with at most one
    newline after it. *)
Theorem accepted_urls (s : Py.str) :
  re_search_pattern s = true <->
  exists scheme kind body tail,
    (scheme = [] \/ scheme = py "http://" \/ scheme = py "https://")
    /\ (kind = py "playlist" \/ kind = py "track")
    /\ s = scheme ++ py "open.spotify.com/" ++ kind ++ py "/" ++ body ++ tail
    /\ body <> [] /\ Forall (fun c => c <> newline) body
    /\ (tail = [] \/ tail = [newline]).
Proof.
  unfold re_search_pattern. rewrite !orb_true_iff, !andb_true_iff, !host_and_path_iff. split.
  - intros [[[Hs (kind & rest & Hk & Ht & Hd)] | [Hs (kind & rest & Hk & Ht & Hd)]]
           | (kind & rest & Hk & Ht & Hd)];
      apply dot_plus_end_iff in Hd as (body & tail & -> & Hne & Hall & Htail).
    + apply startswith_drop in Hs.
      change (length (py "https://")) with 8%nat in Hs. rewrite Ht in Hs.
      exists (py "https://"), kind, body, tail. repeat split; auto.
    + apply startswith_drop in Hs.
      change (length (py "http://")) with 7%nat in Hs. rewrite Ht in Hs.
      exists (py "http://"), kind, body, tail. repeat split; auto.
    + exists [], kind, body, tail. repeat split; auto.
  - intros (scheme & kind & body & tail & Hscheme & Hkind & -> & Hne & Hall & Htail).
    assert (Hd : dot_plus_end (body ++ tail) = true).
    { apply dot_plus_end_iff. exists body, tail. repeat split; assumption. }
    destruct Hscheme as [-> | [-> | ->]].
    + right. exists kind, (body ++ tail). repeat split; assumption.
    + left. right. split; [apply startswith_app|].
      exists kind, (body ++ tail). repeat split; assumption.
    + left. left. split; [apply startswith_app|].
      exists kind, (body ++ tail). repeat split; assumption.
Qed.

Lemma accepted_kind (s : Py.str) :
  re_search_pattern s = true ->
  exists before kind rest,
    (kind = py "playlist" \/ kind = py "track") /\ s = before ++ kind ++ rest.
Proof.
  unfold re_search_pattern. rewrite !orb_true_iff, !andb_true_iff, !host_and_path_iff.
  intros [[[Hs (kind & rest & Hk & Ht & _)] | [Hs (kind & rest & Hk & Ht & _)]]
         | (kind & rest & Hk & Ht & _)].
  - apply startswith_drop in Hs.
    change (length (py "https://")) with 8%nat in Hs. rewrite Ht in Hs.
    exists (py "https://open.spotify.com/"), kind, (py "/" ++ rest).
    split; [exact Hk | exact Hs].
  - apply startswith_drop in Hs.
    change (length (py "http://")) with 7%nat in Hs. rewrite Ht in Hs.
    exists (py "http://open.spotify.com/"), kind, (py "/" ++ rest).
    split; [exact Hk | exact Hs].
  - exists (py "open.spotify.com/"), kind, (py "/" ++ rest).
    split; [exact Hk | exact Ht].
Qed.

(** X2. A URL that passed validation is always dispatched: as one track when
    it contains "track", and otherwise as a playlist.  The third branch
    of the dispatch, the error about a URL that is neither, cannot be
    reached from [main]. *)
Theorem valid_url_is_dispatched (w : world) (fuel : nat) (url : Py.str) :
  re_search_pattern url = true ->
  (Py.contains (py "track") url = true \/ Py.contains (py "playlist") url = true)
  /\ songs_of w fuel url
     = if Py.contains (py "track") url
       then Some (match get_track_info w url with
                  | Ok track_metadata => Ok [track_metadata]
                  | Raise e => Raise e
                  end)
       else get_playlist_info w fuel url.
Proof.
  intros Hvalid.
  destruct (accepted_kind url Hvalid) as (before & kind & rest & Hkind & ->).
  assert (Hin : Py.contains kind (before ++ kind ++ rest) = true)
    by apply contains_middle.
  unfold songs_of.
  destruct Hkind as [-> | ->].
  - split; [right; exact Hin|]. rewrite Hin.
    destruct (Py.contains (py "track") _); reflexivity.
  - split; [left; exact Hin|]. rewrite Hin. reflexivity.
Qed.

(** X3. A line that is not an accepted URL ends the run at once, whatever
    the world is: the run reads the line, prints the format error, and
    asks nothing of the catalog or of YouTube; the files and the rest of
    the console are as they were.  With nothing to read, the run ends
    with the end-of-file error. *)
Theorem invalid_url_ends_run (w : world) (fuel : nat) (s : state) :
  (forall line rest,
     stdin s = line :: rest ->
     re_search_pattern (Py.strip line) = false ->
     main w fuel s
     = Some {| file_exists_action := file_exists_action s; stdin := rest; fs := fs s;
               out := out s ++ [Input; Error (ValueError "Invalid Spotify URL format.")] |})
  /\ (stdin s = [] -> main w fuel s = Some (emit [Error EOFError] s)).
Proof.
  split.
  - intros line rest Hstdin Hbad.
    unfold main, main_try, input, bind, gets, read_line, modify, ret, validate_spotify_url.
    rewrite Hstdin. simpl. rewrite Hbad. unfold after, print, modify, emit. simpl.
    rewrite <- app_assoc. reflexivity.
  - intros Hstdin.
    unfold main, main_try, input, bind, gets, raise. rewrite Hstdin. reflexivity.
Qed.

End Urls.

Lemma accepted_urls_witness :
  SpotifyDownloader.re_search_pattern (py "http://open.spotify.com/track/6rqhFgbbKwnb9MLmUQDhG6")
  = true.
Proof.
  apply (proj2 (accepted_urls (py "http://open.spotify.com/track/6rqhFgbbKwnb9MLmUQDhG6"))).
  exists (py "http://"), (py "track"), (py "6rqhFgbbKwnb9MLmUQDhG6"), [].
  split; [right; left; reflexivity|]. split; [right; reflexivity|].
  split; [reflexivity|]. split; [discriminate|].
  split; [|left; reflexivity].
  repeat (constructor; [discriminate|]). constructor.
Defined.

Lemma valid_url_is_dispatched_witness :
  let w := Samples.online 200 true Samples.search_up Samples.audio_up in
  SpotifyDownloader.songs_of w 2 Samples.playlist_url
  = SpotifyDownloader.get_playlist_info w 2 Samples.playlist_url.
Proof.
  intros w.
  apply (proj2 (valid_url_is_dispatched w 2 Samples.playlist_url eq_refl)).
Defined.

Lemma invalid_url_ends_run_witness :
  let w := Samples.online 200 true Samples.search_up Samples.audio_up in
  SpotifyDownloader.main w 0 (Samples.start [py "  spotify:track:abc  "; py "ra"] ∅)
  = Some {| SpotifyDownloader.file_exists_action := [];
            SpotifyDownloader.stdin := [py "ra"];
            SpotifyDownloader.fs := ∅;
            SpotifyDownloader.out :=
              [SpotifyDownloader.Input;
               SpotifyDownloader.Error (ValueError "Invalid Spotify URL format.")] |}
  /\ SpotifyDownloader.main w 0 (Samples.start [] ∅)
     = Some (SpotifyDownloader.emit [SpotifyDownloader.Error EOFError] (Samples.start [] ∅)).
Proof.
  intros w. split.
  - apply (proj1 (invalid_url_ends_run w 0 (Samples.start [py "  spotify:track:abc  "; py "ra"] ∅))
             (py "  spotify:track:abc  ") [py "ra"]); reflexivity.
  - apply (proj2 (invalid_url_ends_run w 0 (Samples.start [] ∅))). reflexivity.
Defined.

(** ** Collections that cannot be read *)

Section Inaccessible.
Import SpotifyDownloader.
Variable w : world.




End Inaccessible.

Section InaccessibleExamples.
Import SpotifyDownloader.



End InaccessibleExamples.

(** ** The catalog *)

Section Catalog.
Import SpotifyDownloader.
Variable w : world.

(** X4. [get_track_info] asks the catalog only when the page of the track
    answers 200.  What it returns has the artists of the catalog, who are
    not none, the first of them as the artist, the second image of the
    album when there are two and else the first, and an empty ISRC when
    the catalog has none. *)
Theorem get_track_info_result (track_url : Py.str) :
  (forall status_code,
     requests_get w track_url = Ok status_code -> status_code <> 200%nat ->
     get_track_info w track_url
     = Raise (ValueError "Invalid Spotify track URL or track not accessible."))
  /\ (forall metadata,
        get_track_info w track_url = Ok metadata ->
        requests_get w track_url = Ok 200%nat
        /\ exists track,
             sp_track_api w track_url = Ok track
             /\ artists metadata = track_artists track
             /\ head (artists metadata) = Some (artist_name metadata)
             /\ album_images track
                !! (if (1 <? length (album_images track))%nat then 1%nat else 0%nat)
                = Some (album_art metadata)
             /\ isrc metadata = default [] (external_isrc track)
             /\ track_title metadata = track_name track
             /\ album_name metadata = track_album_name track
             /\ release_date metadata = album_release_date track
             /\ track_number metadata = track_track_number track).
Proof.
  unfold get_track_info. split.
  - intros status_code Hget Hstatus. rewrite Hget.
    apply Nat.eqb_neq in Hstatus. rewrite Hstatus. reflexivity.
  - intros metadata.
    destruct (requests_get w track_url) as [status_code|e]; [|discriminate].
    destruct (Nat.eqb_spec status_code 200) as [->|Hne]; simpl; [|discriminate].
    destruct (sp_track_api w track_url) as [track|e]; [|discriminate].
    unfold index.
    destruct (track_artists track) as [|first_artist others] eqn:Hartists; simpl.
    { discriminate. }
    destruct (1 <? length (album_images track))%nat eqn:Hlen;
      match goal with
      | |- context [album_images track !! ?i] =>
          destruct (album_images track !! i) as [art|] eqn:Hart
      end; try discriminate;
      intros [= <-]; simpl; (split; [reflexivity|]); exists track;
      rewrite Hartists, Hlen; repeat split; exact Hart.
Qed.

(** X5. [resolve_items] looks up the tracks of the items that have a
    non-empty identifier, in their order, and skips the others.  It
    succeeds exactly when each of these lookups does, and then appends
    what they gave to the tracks it was given; one failing lookup makes
    it raise, and what the others gave is lost. *)
Theorem resolve_items_result (items : list (option (option Py.str)))
    (tracks_info : list track_info) :
  (forall result,
     resolve_items w items tracks_info = Ok result <->
     exists resolved,
       result = tracks_info ++ resolved
       /\ Forall2 (fun track_id track_metadata =>
                     get_track_info w (py "https://open.spotify.com/track/" ++ track_id)
                     = Ok track_metadata)
            (track_ids items) resolved)
  /\ (forall track_id e,
        track_id ∈ track_ids items ->
        get_track_info w (py "https://open.spotify.com/track/" ++ track_id) = Raise e ->
        exists e', resolve_items w items tracks_info = Raise e').
Proof.
  split.
  - revert tracks_info.
    induction items as [|[[track_id|]|] items IH]; intros tracks_info result; simpl.
    + split.
      * intros [= <-]. exists []. rewrite app_nil_r. split; [reflexivity | constructor].
      * intros (resolved & -> & Hall). inversion Hall. rewrite app_nil_r. reflexivity.
    + case_bool_decide; [apply IH|].
      destruct (get_track_info w _) as [track_metadata|e] eqn:Hget.
      * rewrite IH. split.
        -- intros (resolved & -> & Hall). exists (track_metadata :: resolved).
           rewrite <- app_assoc. split; [reflexivity|]. constructor; assumption.
        -- intros (resolved & -> & Hall). inversion Hall as [|? md ? rest Hfirst Hrest]; subst.
           rewrite Hget in Hfirst. injection Hfirst as <-.
           exists rest. rewrite <- app_assoc. split; [reflexivity | exact Hrest].
      * split; [discriminate|].
        intros (resolved & -> & Hall). inversion Hall as [|? md ? rest Hfirst Hrest]; subst.
        rewrite Hget in Hfirst. discriminate.
    + apply IH.
    + apply IH.
  - revert tracks_info.
    induction items as [|[[first|]|] items IH]; intros tracks_info track_id e Hin Hfail;
      cbn [track_ids resolve_items] in *.
    + inversion Hin.
    + case_bool_decide; [eapply IH; eassumption|].
      destruct (get_track_info w (py "https://open.spotify.com/track/" ++ first))
        as [track_metadata|e1] eqn:Hget; [|eexists; reflexivity].
      apply elem_of_cons in Hin as [-> | Hin]; [congruence|].
      eapply IH; eassumption.
    + eapply IH; eassumption.
    + eapply IH; eassumption.
Qed.

(** X6. Pagination collects every page.  When the source serves a list of
    non-empty pages in a row, the paginator fetches each once, at the
    offset where the page before ended, and returns what resolving all
    their items in order gives. *)
Theorem pagination_collects_all_pages (playlist_url : Py.str)
    (pages : list (list (option (option Py.str)))) (fuel : nat) :
  requests_get w playlist_url = Ok 200%nat ->
  sp_playlist_public w playlist_url = Ok true ->
  serves w playlist_url 0 pages ->
  get_playlist_info w (S (length pages) + fuel) playlist_url
  = Some (resolve_items w (concat pages) []).
Proof.
  intros Hget Hpublic Hserves. unfold get_playlist_info.
  rewrite Hget, Hpublic. simpl negb. cbv iota.
  apply paginate_serves. exact Hserves.
Qed.

End Catalog.

Section CatalogExamples.
Import SpotifyDownloader.

Lemma get_track_info_result_witness :
  let url := py "https://open.spotify.com/track/One" in
  get_track_info (Samples.online 404 true Samples.search_up Samples.audio_up) url
  = Raise (ValueError "Invalid Spotify track URL or track not accessible.")
  /\ exists track,
       sp_track_api (Samples.online 200 true Samples.search_up Samples.audio_up) url = Ok track
       /\ album_images track !! 1%nat = Some (py "http://img/300").
Proof.
  intros url. split.
  - apply (proj1 (get_track_info_result
                    (Samples.online 404 true Samples.search_up Samples.audio_up) url)
             404%nat); [reflexivity | discriminate].
  - destruct (proj2 (get_track_info_result
                       (Samples.online 200 true Samples.search_up Samples.audio_up) url)
                (Samples.song (py "One")) eq_refl)
      as (_ & track & Htrack & _ & _ & Hart & _).
    exists track. split; [exact Htrack|].
    injection Htrack as <-. exact Hart.
Defined.

Lemma resolve_items_result_witness :
  let w' := Samples.online 200 true Samples.search_up Samples.audio_up in
  resolve_items w' [None; Some (Some (py "One")); Some None; Some (Some []);
                    Some (Some (py "Two"))] []
  = Ok [Samples.song (py "One"); Samples.song (py "Two")]
  /\ exists e,
       resolve_items (Samples.online 404 true Samples.search_up Samples.audio_up)
         [Some (Some (py "One")); Some (Some (py "Two"))] []
       = Raise e.
Proof.
  intros w'. split.
  - apply (proj1 (resolve_items_result w' _ [])).
    exists [Samples.song (py "One"); Samples.song (py "Two")].
    split; [reflexivity|]. repeat constructor.
  - apply (proj2 (resolve_items_result
                    (Samples.online 404 true Samples.search_up Samples.audio_up)
                    [Some (Some (py "One")); Some (Some (py "Two"))] [])
             (py "Two")
             (ValueError "Invalid Spotify track URL or track not accessible.")).
    + apply list_elem_of_In. right. left. reflexivity.
    + reflexivity.
Defined.

Lemma pagination_collects_all_pages_witness :
  let w' := Samples.stuck_from 3
              (Samples.online 200 true Samples.search_up Samples.audio_up) in
  get_playlist_info w' 2 Samples.playlist_url
  = Some (resolve_items w' (items (Samples.three_tracks 0)) []).
Proof.
  intros w'.
  refine (eq_trans
            (pagination_collects_all_pages w' Samples.playlist_url
               [items (Samples.three_tracks 0)] 0 eq_refl eq_refl _) _).
  - split; [discriminate|]. left. split; [reflexivity|]. exists true. reflexivity.
  - reflexivity.
Defined.

End CatalogExamples.

(** ** The link that the search returns *)

Section SearchResult.
Import SpotifyDownloader.
Variable w : world.

Lemma match_watch_shape (s video_id : Py.str) :
  match_watch s = Some video_id ->
  length video_id = 11%nat /\ Forall (fun c => Py.isspace c = false) video_id.
Proof.
  unfold match_watch.
  destruct (Py.startswith s (py "watch?v=")); simpl; [|discriminate].
  destruct (length (take 11 (drop 8 s)) =? 11)%nat eqn:Hlen; simpl; [|discriminate].
  destruct (forallb _ (take 11 (drop 8 s))) eqn:Hall; [|discriminate].
  intros [= <-]. split; [apply Nat.eqb_eq; exact Hlen|].
  apply forallb_Forall in Hall. eapply Forall_impl; [exact Hall|].
  intros c Hc. simpl in Hc. apply negb_true_iff. exact Hc.
Qed.

Lemma findall_watch_shape (s : Py.str) :
  forall skip,
    Forall (fun video_id =>
              length video_id = 11%nat /\ Forall (fun c => Py.isspace c = false) video_id)
      (findall_watch skip s).
Proof.
  induction s as [|c s IH]; intros skip; cbn [findall_watch]; [constructor|].
  destruct skip as [|skip]; [|apply IH].
  destruct (match_watch (c :: s)) as [video_id|] eqn:Hmatch; [|apply IH].
  constructor; [exact (match_watch_shape _ _ Hmatch) | apply IH].
Qed.

(** X7. Whatever the result page holds, a link that [find_youtube] returns
    is the watch URL followed by 11 characters none of which is white
    space; and a page that was fetched but links no video makes it raise
    the error that nothing was found. *)
Theorem find_youtube_link_shape (query : Py.str) (s : state) :
  (forall link s',
     find_youtube w query s = (Ok link, s') ->
     exists video_id,
       link = py "https://www.youtube.com/watch?v=" ++ video_id
       /\ length video_id = 11%nat
       /\ Forall (fun c => Py.isspace c = false) video_id)
  /\ (forall search_html s',
        retry_urlopen w
          (py "https://www.youtube.com/results?search_query=" ++ Py.replace 32 43 query) 0 s
        = (Ok (Ok search_html), s') ->
        findall_watch 0 search_html = [] ->
        find_youtube w query s
        = (Raise (ValueError "No YouTube results found for query."), s')).
Proof.
  unfold find_youtube, bind, lift. split.
  - intros link s'.
    destruct (retry_urlopen w _ 0 s) as [[[search_html|e]|e] s1]; try discriminate.
    pose proof (findall_watch_shape search_html 0) as Hshape.
    destruct (findall_watch 0 search_html) as [|first others]; [discriminate|].
    intros [= <- <-]. exists first. split; [reflexivity|].
    inversion Hshape; subst. assumption.
  - intros search_html s' Hopen Hnone. rewrite Hopen, Hnone. reflexivity.
Qed.

End SearchResult.

Section SearchResultExamples.
Import SpotifyDownloader.

Lemma find_youtube_link_shape_witness :
  let w := Samples.online 200 true Samples.search_up Samples.audio_up in
  let missing := Samples.online 200 true (Samples.search_misses (py "One")) Samples.audio_up in
  let s := Samples.start [] ∅ in
  (exists video_id,
     py "https://www.youtube.com/watch?v=A+One+audio"
     = py "https://www.youtube.com/watch?v=" ++ video_id
     /\ length video_id = 11%nat
     /\ Forall (fun c => Py.isspace c = false) video_id)
  /\ (find_youtube missing (py "A One audio") s).1
     = Raise (ValueError "No YouTube results found for query.").
Proof.
  intros w missing s. split.
  - apply (proj1 (find_youtube_link_shape w (py "A One audio") s)
             (py "https://www.youtube.com/watch?v=A+One+audio")
             (emit [Urlopen (py "https://www.youtube.com/results?search_query=A+One+audio")] s)).
    vm_compute. reflexivity.
  - rewrite (proj2 (find_youtube_link_shape missing (py "A One audio") s)
               (py "<p>No results</p>")
               (emit [Urlopen (py "https://www.youtube.com/results?search_query=A+One+audio")] s)).
    + reflexivity.
    + vm_compute. reflexivity.
    + vm_compute. reflexivity.
Defined.

End SearchResultExamples.

(** ** Paths *)

Lemma rfind_from_app (c : N) (a b : Py.str) (i last : Z) :
  Py.rfind_from c (a ++ b) i last
  = Py.rfind_from c b (i + Z.of_nat (length a)) (Py.rfind_from c a i last).
Proof.
  revert i last. induction a as [|x a IH]; intros i last; simpl.
  - rewrite Z.add_0_r. reflexivity.
  - rewrite IH. f_equal. lia.
Qed.

Lemma rfind_from_absent (c : N) (s : Py.str) (i last : Z) :
  Forall (fun x => x <> c) s -> Py.rfind_from c s i last = last.
Proof.
  intros H. revert i last. induction H as [|x s Hx _ IH]; intros i last; simpl.
  - reflexivity.
  - rewrite IH. apply N.eqb_neq in Hx. rewrite Hx. reflexivity.
Qed.

Lemma basename_in_tmp (name : Py.str) :
  Forall (fun x => x <> Py.sep) name ->
  Py.basename (py "../music/tmp/" ++ name) = name.
Proof.
  intros H. unfold Py.basename, Py.rfind.
  rewrite rfind_from_app, rfind_from_absent by exact H. reflexivity.
Qed.

Lemma join_plain (a name : Py.str) :
  a <> [] -> Py.endswith a [Py.sep] = false ->
  Forall (fun x => x <> Py.sep) name ->
  Py.join a name = a ++ Py.sep :: name.
Proof.
  intros Ha Hend Hname. unfold Py.join.
  assert (Py.startswith name [Py.sep] = false) as ->.
  { destruct Hname as [|x name Hx _]; [reflexivity|]. simpl.
    apply N.eqb_neq in Hx. rewrite Hx. reflexivity. }
  rewrite bool_decide_eq_false_2 by exact Ha. rewrite Hend. reflexivity.
Qed.

Section FileNames.
Import SpotifyDownloader.

Lemma out_filename_no_sep (title : Py.str) :
  Forall (fun x => x <> Py.sep) (out_filename title).
Proof.
  unfold out_filename. apply Forall_app. split.
  - apply Forall_forall. intros x Hx. apply list_elem_of_filter in Hx as [Hx _].
    intros ->. apply Hx. unfold invalid_filename_chars.
    apply list_elem_of_In. left. reflexivity.
  - repeat constructor; discriminate.
Qed.

End FileNames.

(** ** Download *)

Section Download.
Import SpotifyDownloader.
Variable w : world.

Lemma final_path_plain (title : Py.str) :
  Py.join (py "../music") (out_filename title) = py "../music/" ++ out_filename title.
Proof.
  rewrite join_plain; [reflexivity | discriminate | reflexivity | apply out_filename_no_sep].
Qed.

Lemma tmp_path_plain (title : Py.str) :
  Py.join (py "../music/tmp") (out_filename title)
  = py "../music/tmp/" ++ out_filename title.
Proof.
  rewrite join_plain; [reflexivity | discriminate | reflexivity | apply out_filename_no_sep].
Qed.

(** [download_yt] in terms of the two paths. *)
Lemma download_yt_unfold (yt_link : Py.str) (s : state) :
  download_yt w yt_link s
  = match yt_title w yt_link with
    | Raise e => (Raise e, s)
    | Ok title =>
        match (if bool_decide (is_Some (fs s !! (py "../music/" ++ out_filename title)))
               then prompt_file_exists_action s else (Ok true, s)) with
        | (Raise e, s1) => (Raise e, s1)
        | (Ok false, s1) => (Ok None, s1)
        | (Ok true, s1) =>
            match yt_audio w yt_link with
            | Raise e =>
                (Raise e,
                 {| file_exists_action := file_exists_action s1; stdin := stdin s1;
                    fs := leave (yt_leftover w yt_link) (fs s1);
                    out := out s1 |})
            | Ok audio =>
                (Ok (Some (py "../music/tmp/" ++ out_filename title)),
                 {| file_exists_action := file_exists_action s1; stdin := stdin s1;
                    fs := <[py "../music/tmp/" ++ out_filename title := audio]> (fs s1);
                    out := out s1 |})
            end
        end
    end.
Proof.
  unfold download_yt, bind at 1, lift at 1.
  destruct (yt_title w yt_link) as [title|e]; [|reflexivity].
  change (filter _ title ++ py ".mp3") with (out_filename title).
  rewrite final_path_plain, tmp_path_plain.
  unfold bind at 1, exists_, gets. cbv beta iota.
  match goal with
  | |- context [if ?b then prompt_file_exists_action else _] => destruct b eqn:Hb
  end;
    match goal with
    | |- context [bool_decide ?P] =>
        let H := fresh in
        assert (H : bool_decide P = _) by exact Hb; rewrite H; clear H
    end.
  - unfold bind at 1.
    destruct (prompt_file_exists_action s) as [[[|]|e] s1]; try reflexivity.
    cbn [negb]. destruct (yt_audio w yt_link); reflexivity.
  - unfold bind at 1, ret at 1. cbn [negb].
    destruct (yt_audio w yt_link); reflexivity.
Qed.


Lemma prompt_loop_keeps_fs (lines : list Py.str) (F : filesystem) :
  keeps (fun s => fs s = F) (prompt_loop lines).
Proof.
  induction lines as [|line rest IH]; intros s Hs; cbn [prompt_loop].
  - exact Hs.
  - unfold bind at 1, read_line, modify. cbn [fst snd].
    destruct (Py.eqb (Py.strip (Py.upper line)) (py "R")
              || Py.eqb (Py.strip (Py.upper line)) RA).
    { destruct (Py.eqb (Py.strip (Py.upper line)) RA); exact Hs. }
    destruct (Py.eqb (Py.strip (Py.upper line)) (py "S")
              || Py.eqb (Py.strip (Py.upper line)) SA).
    { destruct (Py.eqb (Py.strip (Py.upper line)) SA); exact Hs. }
    unfold bind at 1, print, modify. cbn [fst snd]. apply IH. exact Hs.
Qed.

Lemma prompt_keeps_fs (F : filesystem) :
  keeps (fun s => fs s = F) prompt_file_exists_action.
Proof.
  intros s Hs. unfold prompt_file_exists_action, bind at 1, gets at 1.
  destruct (Py.eqb (file_exists_action s) SA || Py.eqb (file_exists_action s) RA);
    [exact Hs|].
  unfold bind at 1, print, modify. cbn [fst snd].
  unfold bind at 1, gets. cbn [fst snd].
  apply prompt_loop_keeps_fs. exact Hs.
Qed.

(** X8. The file that [download_yt] hands back lies in the scratch folder
    under the video title without the characters a file name cannot
    have, and its base name is the name that was checked against the
    music folder: [main] moves the file to the very path for which the
    collision was decided. *)
Theorem download_yt_path (yt_link audio_path : Py.str) (s s' : state) :
  download_yt w yt_link s = (Ok (Some audio_path), s') ->
  exists title,
    yt_title w yt_link = Ok title
    /\ audio_path = py "../music/tmp/" ++ out_filename title
    /\ Forall (fun c => c ∉ invalid_filename_chars)
         (take (length (out_filename title) - 4) (out_filename title))
    /\ Py.join (py "../music") (Py.basename audio_path)
       = py "../music/" ++ out_filename title
    /\ is_Some (fs s' !! audio_path)
    /\ fs s' !! (py "../music/" ++ out_filename title)
       = fs s !! (py "../music/" ++ out_filename title).
Proof.
  rewrite download_yt_unfold.
  destruct (yt_title w yt_link) as [title|e]; [|discriminate].
  intros H. exists title. split; [reflexivity|].
  assert (Hsafe : Forall (fun c => c ∉ invalid_filename_chars)
                    (take (length (out_filename title) - 4) (out_filename title))).
  { unfold out_filename. rewrite length_app. simpl.
    replace (length (filter (fun c => c ∉ invalid_filename_chars) title) + 4 - 4)%nat
      with (length (filter (fun c => c ∉ invalid_filename_chars) title)) by lia.
    rewrite take_app_length. apply Forall_forall. intros c Hc.
    apply list_elem_of_filter in Hc as [Hc _]. exact Hc. }
  assert (Hfs : forall s1 : state,
            (if bool_decide (is_Some (fs s !! (py "../music/" ++ out_filename title)))
             then prompt_file_exists_action s else (Ok true, s)).2 = s1 ->
            fs s1 = fs s).
  { intros s1 <-. destruct (bool_decide _); [|reflexivity].
    apply (prompt_keeps_fs (fs s) s). reflexivity. }
  destruct (if bool_decide _ then _ else _) as [[[|]|e] s1]; try discriminate.
  specialize (Hfs s1 eq_refl).
  destruct (yt_audio w yt_link) as [audio|e]; [|discriminate].
  assert (Hpath : audio_path = py "../music/tmp/" ++ out_filename title) by congruence.
  assert (Hs' : s' = {| file_exists_action := file_exists_action s1; stdin := stdin s1;
                        fs := <[py "../music/tmp/" ++ out_filename title := audio]> (fs s1);
                        out := out s1 |}) by congruence.
  clear H. subst audio_path s'. cbn [fs].
  split; [reflexivity|]. split; [exact Hsafe|].
  split; [rewrite basename_in_tmp by apply out_filename_no_sep; apply final_path_plain|].
  split; [rewrite lookup_insert_eq; eexists; reflexivity|].
  rewrite lookup_insert_ne, Hfs; [reflexivity|].
  intros Heq. apply (f_equal (drop 9)) in Heq.
  change (py "tmp/" ++ out_filename title = out_filename title) in Heq.
  pose proof (out_filename_no_sep title) as Hsep. rewrite <- Heq in Hsep.
  apply Forall_app in Hsep as [Hsep _].
  apply (Forall_lookup_1 _ _ 3 Py.sep) in Hsep; [contradiction | reflexivity].
Qed.


End Download.

Section DownloadExamples.
Import SpotifyDownloader.

Lemma download_yt_path_witness :
  let w := Samples.online 200 true Samples.search_up Samples.audio_up in
  exists title,
    yt_title w (py "https://www.youtube.com/watch?v=What?/Why:") = Ok title
    /\ py "../music/tmp/WhatWhy.mp3" = py "../music/tmp/" ++ out_filename title.
Proof.
  intros w.
  assert (H : download_yt w (py "https://www.youtube.com/watch?v=What?/Why:")
                (Samples.start [] ∅)
              = (Ok (Some (py "../music/tmp/WhatWhy.mp3")),
                 after (download_yt w (py "https://www.youtube.com/watch?v=What?/Why:"))
                   (Samples.start [] ∅))).
  { vm_compute. reflexivity. }
  destruct (download_yt_path w _ _ _ _ H) as (title & Htitle & Hpath & _).
  exists title. split; [exact Htitle | exact Hpath].
Defined.

End DownloadExamples.

(** ** The prompt at the end of the input *)

Section PromptEnd.
Import SpotifyDownloader.

Lemma prompt_loop_exhausted (lines : list Py.str) (s : state) :
  Forall (fun l => decision_of l = None) lines ->
  prompt_loop lines s
  = (Raise EOFError,
     {| file_exists_action := file_exists_action s;
        stdin := match lines with [] => stdin s | _ => [] end;
        fs := fs s;
        out := out s ++ concat (replicate (length lines) [Input; InvalidResponse]) |}).
Proof.
  intros Hinvalid. revert s.
  induction Hinvalid as [|l lines Hl Hrest IH]; intros s; cbn [prompt_loop].
  - unfold raise. simpl. rewrite app_nil_r. destruct s; reflexivity.
  - unfold decision_of in Hl. unfold bind at 1, read_line, modify. cbn [fst snd].
    destruct (Py.eqb (Py.strip (Py.upper l)) (py "R")); [discriminate|].
    destruct (Py.eqb (Py.strip (Py.upper l)) RA); [discriminate|].
    destruct (Py.eqb (Py.strip (Py.upper l)) (py "S")); [discriminate|].
    destruct (Py.eqb (Py.strip (Py.upper l)) SA); [discriminate|].
    cbn [orb]. unfold bind at 1, print, modify. cbn [fst snd].
    rewrite IH. cbn [file_exists_action stdin fs out emit length replicate concat].
    f_equal. f_equal; [destruct lines; reflexivity|].
    rewrite <- !app_assoc. reflexivity.
Qed.

(** X10. When the decision is not sticky and the console holds nothing but
    invalid answers, the prompt reads them all, asking again after each,
    and then fails with the end-of-file error: it never settles a
    collision by a default.  The sticky decision stays unset and no file
    changes. *)
Theorem prompt_at_end_of_input (s : state) :
  file_exists_action s <> RA -> file_exists_action s <> SA ->
  Forall (fun l => decision_of l = None) (stdin s) ->
  prompt_file_exists_action s
  = (Raise EOFError,
     {| file_exists_action := file_exists_action s;
        stdin := [];
        fs := fs s;
        out := out s ++ [FileExists]
                 ++ concat (replicate (length (stdin s)) [Input; InvalidResponse]) |}).
Proof.
  intros HRA HSA Hinvalid.
  unfold prompt_file_exists_action, bind at 1, gets at 1.
  assert (Py.eqb (file_exists_action s) SA = false) as ->
    by (apply bool_decide_eq_false; exact HSA).
  assert (Py.eqb (file_exists_action s) RA = false) as ->
    by (apply bool_decide_eq_false; exact HRA).
  cbn [orb]. unfold bind, print, modify, gets. cbn [fst snd].
  change (stdin (emit [FileExists] s)) with (stdin s).
  rewrite (prompt_loop_exhausted (stdin s) _ Hinvalid).
  cbn [file_exists_action stdin fs out emit].
  f_equal. f_equal; [destruct (stdin s); reflexivity|].
  rewrite <- app_assoc. reflexivity.
Qed.

Lemma prompt_at_end_of_input_witness :
  (prompt_file_exists_action (Samples.start [py "yes"; py ""] ∅)).1 = Raise EOFError.
Proof.
  rewrite (prompt_at_end_of_input (Samples.start [py "yes"; py ""] ∅)).
  - reflexivity.
  - discriminate.
  - discriminate.
  - repeat constructor.
Defined.

End PromptEnd.

(** ** What a write and a song leave behind *)

Section SongOutcome.
Import SpotifyDownloader.
Variable w : world.

Lemma set_metadata_missing (metadata : track_info) (file_path : Py.str) (s : state) :
  fs s !! file_path = None ->
  set_metadata w metadata file_path s = (Raise (OtherError "MutagenError"), s).
Proof.
  intros Hnone. unfold set_metadata, bind, open_or_init, EasyID3.
  rewrite Hnone. reflexivity.
Qed.

Lemma set_metadata_art_fails (metadata : track_info) (file_path : Py.str) (s : state)
    (file : option (gmap string frame)) (e : exn) :
  fs s !! file_path = Some file ->
  urlopen_art w (album_art metadata) = Raise e ->
  set_metadata w metadata file_path s
  = (Raise e,
     {| file_exists_action := file_exists_action s; stdin := stdin s;
        fs := <[file_path := Some (basic_tags metadata (default ∅ file))]> (fs s);
        out := out s |}).
Proof.
  intros Hfile Hart. unfold set_metadata. fold (basic_tags metadata).
  unfold bind, open_or_init, EasyID3, set_fs, modify, gets, lift, bind.
  rewrite Hfile.
  destruct file as [tags|]; cbn [fs]; unfold EasyID3; cbn [fs];
    rewrite ?lookup_insert_eq; cbn [fs]; rewrite ?lookup_insert_eq, Hart;
    rewrite ?insert_insert_eq; reflexivity.
Qed.

Lemma set_metadata_ok (metadata : track_info) (file_path : Py.str) (s : state)
    (file : option (gmap string frame)) (album_bytes : list N) :
  fs s !! file_path = Some file ->
  urlopen_art w (album_art metadata) = Ok album_bytes ->
  set_metadata w metadata file_path s
  = (Ok tt,
     {| file_exists_action := file_exists_action s; stdin := stdin s;
        fs := <[file_path := Some (<["APIC" := cover album_bytes]>
                                     (basic_tags metadata (default ∅ file)))]> (fs s);
        out := out s |}).
Proof.
  intros Hfile Hart. unfold set_metadata. fold (basic_tags metadata).
  unfold bind, open_or_init, EasyID3, set_fs, modify, gets, lift, bind.
  rewrite Hfile.
  destruct file as [tags|]; cbn [fs]; unfold EasyID3; cbn [fs];
    rewrite ?lookup_insert_eq; cbn [fs]; rewrite ?lookup_insert_eq, Hart;
    cbn [fs]; rewrite ?insert_insert_eq; reflexivity.
Qed.

(** X11. [set_metadata] has three outcomes.  On a path that holds no file it
    raises and changes nothing.  When the cover cannot be fetched it
    raises after the basic tags were saved: the file keeps them, without
    a cover.  Otherwise it returns with the basic tags and the cover in
    the file. *)
Theorem set_metadata_outcomes (metadata : track_info) (file_path : Py.str) (s : state) :
  (fs s !! file_path = None ->
   set_metadata w metadata file_path s = (Raise (OtherError "MutagenError"), s))
  /\ (forall file e,
        fs s !! file_path = Some file ->
        urlopen_art w (album_art metadata) = Raise e ->
        set_metadata w metadata file_path s
        = (Raise e,
           {| file_exists_action := file_exists_action s; stdin := stdin s;
              fs := <[file_path := Some (basic_tags metadata (default ∅ file))]> (fs s);
              out := out s |}))
  /\ (forall file album_bytes,
        fs s !! file_path = Some file ->
        urlopen_art w (album_art metadata) = Ok album_bytes ->
        set_metadata w metadata file_path s
        = (Ok tt,
           {| file_exists_action := file_exists_action s; stdin := stdin s;
              fs := <[file_path := Some (<["APIC" := cover album_bytes]>
                                           (basic_tags metadata (default ∅ file)))]> (fs s);
              out := out s |})).
Proof.
  split; [|split].
  - apply set_metadata_missing.
  - intros file e. apply set_metadata_art_fails.
  - intros file album_bytes. apply set_metadata_ok.
Qed.

(** X12. A song that goes through.  When the search gives a link, no file of
    the name is in the music folder, and the audio and the cover can be
    fetched, the song counts as downloaded; the tagged file is in the
    music folder under the sanitized title, nothing is left of it in the
    scratch folder, and the console was not consulted. *)
Theorem process_song_success (total_songs i downloaded_count : nat)
    (track_info : track_info) (s s1 : state) (yt_link title : Py.str)
    (audio : option (gmap string frame)) (album_bytes : list N) :
  let search_term :=
    artist_name track_info ++ py " " ++ track_title track_info ++ py " audio" in
  find_youtube w search_term (emit [Searching i total_songs search_term] s)
  = (Ok yt_link, s1) ->
  yt_title w yt_link = Ok title ->
  fs s1 !! (py "../music/" ++ out_filename title) = None ->
  yt_audio w yt_link = Ok audio ->
  urlopen_art w (album_art track_info) = Ok album_bytes ->
  process_song w total_songs i track_info downloaded_count s
  = (Ok (downloaded_count + 1)%nat,
     {| file_exists_action := file_exists_action s1;
        stdin := stdin s1;
        fs := <[py "../music/" ++ out_filename title
                := Some (<["APIC" := cover album_bytes]>
                           (basic_tags track_info (default ∅ audio)))]>
                (delete (py "../music/tmp/" ++ out_filename title) (fs s1));
        out := out s1 ++ [Downloading (artist_name track_info) (track_title track_info);
                          Saved] |}).
Proof.
  intros search_term Hsearch Htitle Habsent Haudio Hart.
  unfold process_song. fold search_term.
  unfold bind at 1. unfold print at 1, modify at 1. cbv beta iota.
  unfold bind at 1. unfold try_except at 1. unfold bind at 1.
  rewrite Hsearch. unfold ret at 1. cbv beta iota.
  unfold bind at 1. unfold print at 1, modify at 1. cbv beta iota.
  unfold bind at 1. rewrite download_yt_unfold, Htitle.
  change (fs (emit _ s1)) with (fs s1). rewrite Habsent.
  rewrite bool_decide_eq_false_2 by (intros [? ?]; discriminate).
  rewrite Haudio. cbv beta iota.
  rewrite bool_decide_eq_false_2 by discriminate.
  unfold bind at 1.
  erewrite set_metadata_ok; [|cbn [fs]; apply lookup_insert_eq | exact Hart].
  cbv beta iota. cbn [file_exists_action stdin fs out emit].
  rewrite basename_in_tmp by apply out_filename_no_sep.
  rewrite (join_plain (py "../music"));
    [|discriminate | reflexivity | apply out_filename_no_sep].
  unfold bind at 1. unfold os_replace, bind at 1, gets at 1. cbv beta iota.
  cbn [fs]. rewrite lookup_insert_eq.
  unfold set_fs, modify, bind, print, modify, ret, emit. cbn [file_exists_action stdin fs out].
  rewrite insert_insert_eq, delete_insert_eq.
  rewrite <- app_assoc. reflexivity.
Qed.

End SongOutcome.

Section SongOutcomeExamples.
Import SpotifyDownloader.

Lemma set_metadata_outcomes_witness :
  let up := Samples.online 200 true Samples.search_up Samples.audio_up in
  let md := Samples.song (py "One") in
  (set_metadata up md Samples.staged_path (Samples.start [] ∅)).1
  = Raise (OtherError "MutagenError")
  /\ field_at (fs (after (set_metadata (Samples.art_down up) md Samples.staged_path)
                     Samples.staged)) Samples.staged_path "title"
     = Some (Text [py "One"])
  /\ (set_metadata up md Samples.staged_path Samples.staged).1 = Ok tt.
Proof.
  intros up md. split; [|split].
  - rewrite (proj1 (set_metadata_outcomes up md Samples.staged_path (Samples.start [] ∅)));
      reflexivity.
  - unfold after.
    rewrite (proj1 (proj2 (set_metadata_outcomes (Samples.art_down up) md
                             Samples.staged_path Samples.staged))
               (Some Samples.old_tags) (OtherError "HTTPError"));
      [|vm_compute; reflexivity | reflexivity].
    vm_compute. reflexivity.
  - rewrite (proj2 (proj2 (set_metadata_outcomes up md Samples.staged_path Samples.staged))
               (Some Samples.old_tags) [255; 216; 255]);
      [reflexivity | vm_compute; reflexivity | reflexivity].
Defined.

Lemma process_song_success_witness :
  let up := Samples.online 200 true Samples.search_up Samples.audio_up in
  let s := Samples.start [py "sa"] ∅ in
  let r := process_song up 1 1 (Samples.song (py "One")) 0 s in
  r.1 = Ok 1%nat
  /\ field_at (fs r.2) (py "../music/A+One+audio.mp3") "album" = Some (Text [py "Album"])
  /\ fs r.2 !! py "../music/tmp/A+One+audio.mp3" = None
  /\ stdin r.2 = [py "sa"].
Proof.
  intros up s r.
  assert (Hsearch : find_youtube up (py "A One audio")
                      (emit [Searching 1 1 (py "A One audio")] s)
                    = (Ok (py "https://www.youtube.com/watch?v=A+One+audio"),
                       after (find_youtube up (py "A One audio"))
                         (emit [Searching 1 1 (py "A One audio")] s))).
  { vm_compute. reflexivity. }
  assert (Hfree : fs (after (find_youtube up (py "A One audio"))
                        (emit [Searching 1 1 (py "A One audio")] s))
                  !! (py "../music/" ++ out_filename (py "A+One+audio")) = None).
  { vm_compute. reflexivity. }
  pose proof (process_song_success up 1 1 0 (Samples.song (py "One")) s _ _
                (py "A+One+audio") None [255; 216; 255]
                Hsearch eq_refl Hfree eq_refl eq_refl) as H.
  unfold r. rewrite H. cbn [fst snd fs stdin].
  split; [reflexivity|].
  split; [vm_compute; reflexivity|].
  split; vm_compute; reflexivity.
Defined.

End SongOutcomeExamples.

(** ** How a run ends *)

Section RunEnd.
Import SpotifyDownloader.
Variable w : world.

Lemma process_song_count (total_songs i n m : nat) (track_info : track_info)
    (s s' : state) :
  process_song w total_songs i track_info n s = (Ok m, s') -> m = n \/ m = (n + 1)%nat.
Proof.
  unfold process_song.
  unfold bind at 1. unfold print at 1, modify at 1. cbv beta iota.
  unfold bind at 1.
  destruct (try_except _ _ _) as [[[yt_link|]|e] s1]; [| |discriminate].
  - unfold bind at 1. unfold print at 1, modify at 1. cbv beta iota.
    unfold bind at 1.
    destruct (download_yt w yt_link _) as [[[audio_path|]|e] s2]; [| |discriminate].
    + case_bool_decide.
      * unfold bind, print, modify, ret. intros [= <- _]. left. reflexivity.
      * unfold bind at 1.
        destruct (set_metadata w track_info audio_path s2) as [[[]|e] s3]; [|discriminate].
        unfold bind at 1.
        destruct (os_replace _ _ s3) as [[[]|e] s4]; [|discriminate].
        unfold bind, print, modify, ret. intros [= <- _]. right. reflexivity.
    + unfold bind, print, modify, ret. intros [= <- _]. left. reflexivity.
  - unfold ret. intros [= <- _]. left. reflexivity.
Qed.

Lemma for_songs_count (total_songs : nat) (songs : list track_info) :
  forall (i n m : nat) (s s' : state),
    for_songs w total_songs i songs n s = (Ok m, s') ->
    (n <= m <= n + length songs)%nat.
Proof.
  induction songs as [|track_info rest IH]; intros i n m s s'; cbn [for_songs length].
  - unfold ret. intros [= <- _]. lia.
  - unfold bind at 1.
    destruct (process_song w total_songs i track_info n s) as [[k|e] s1] eqn:Hsong;
      [|discriminate].
    intros Hrest. apply process_song_count in Hsong. apply IH in Hrest. lia.
Qed.

(** X13. Every run that ends, ends with one line: the error, the notice of
    cancellation, or the summary.  A summary never counts more downloads
    than there are songs, and by then the scratch folder is empty. *)
Theorem run_ends_with_one_line (fuel : nat) (s s' : state) :
  main w fuel s = Some s' ->
  (exists e, last (out s') = Some (Error e))
  \/ last (out s') = Some Canceled
  \/ (exists downloaded_count total_songs,
        last (out s') = Some (Summary downloaded_count total_songs)
        /\ (downloaded_count <= total_songs)%nat
        /\ forall path,
             Py.startswith path (py "../music/tmp/") = true -> fs s' !! path = None).
Proof.
  assert (Hlast : forall (t : state) (e : event), last (out (after (print e) t)) = Some e).
  { intros t e. unfold after, print, modify, emit. cbn [snd out]. apply last_snoc. }
  unfold main, main_try.
  destruct (input s) as [[line|e] s0].
  2:{ destruct e; intros [= <-]; rewrite Hlast;
        first [left; eexists; reflexivity | right; left; reflexivity]. }
  destruct (validate_spotify_url (Py.strip line)) as [url|e].
  2:{ destruct e; intros [= <-]; rewrite Hlast;
        first [left; eexists; reflexivity | right; left; reflexivity]. }
  destruct (songs_of w fuel url) as [[songs|e]|]; [| |discriminate].
  2:{ destruct e; intros [= <-]; rewrite Hlast;
        first [left; eexists; reflexivity | right; left; reflexivity]. }
  unfold bind at 1.
  destruct (for_songs w (length songs) 1 songs 0 s0) as [[d|e] s1] eqn:Hfor.
  2:{ destruct e; intros [= <-]; rewrite Hlast;
        first [left; eexists; reflexivity | right; left; reflexivity]. }
  unfold bind, rmtree_tmp, set_fs, print, modify, emit. cbn [fst snd].
  intros [= <-]. right. right. exists d, (length songs). cbn [out fs].
  split; [apply last_snoc|].
  split; [apply for_songs_count in Hfor; lia|].
  intros path Hpath. apply map_lookup_filter_None. right.
  intros file _. cbn [fst]. rewrite Hpath. discriminate.
Qed.

End RunEnd.

(** ** The guess *)

Section Guess.
Import AutoTagger.

Lemma lstrip_Forall (P : N -> Prop) (s : Py.str) : Forall P s -> Forall P (Py.lstrip s).
Proof.
  induction 1 as [|c s Hc Hs IH]; simpl; [constructor|].
  destruct (Py.isspace c); [exact IH | constructor; assumption].
Qed.

Lemma strip_Forall (P : N -> Prop) (s : Py.str) : Forall P s -> Forall P (Py.strip s).
Proof.
  intros H. unfold Py.strip, Py.rstrip.
  apply lstrip_Forall, Forall_reverse, lstrip_Forall, Forall_reverse. exact H.
Qed.

Lemma first_match_Forall (P : N -> Prop) (s l r : Py.str) :
  Forall P s -> first_match s = Some (l, r) -> Forall P l /\ Forall P r.
Proof.
  intros H. revert l r. induction H as [|c s Hc Hs IH]; intros l r; simpl; [discriminate|].
  destruct (is_delim c).
  - intros [= <- <-]. split; [constructor | apply lstrip_Forall; exact Hs].
  - destruct (first_match s) as [[l' r']|]; [|discriminate].
    intros [= <- <-]. destruct (IH l' r' eq_refl) as [Hl Hr].
    split; [constructor; assumption | exact Hr].
Qed.

(** X14. What the parser returns, whatever the file name.  The artist guess
    has at least two characters; neither guess contains an underscore or
    a hyphen.  A name without a colon of either kind is never split: its
    artist guess is "Unknown" and its title guess the whole normalized
    name, also when the name has the form "Artist - Title", because the
    hyphens are turned into spaces before the split. *)
Theorem parse_guess_shape (filename : Py.str) :
  let name :=
    Py.replace hyphen space (Py.replace underscore space (Py.splitext filename).1) in
  (2 <= length (parse_classical_filename filename).1)%nat
  /\ Forall (fun c => c <> hyphen /\ c <> underscore) (parse_classical_filename filename).1
  /\ Forall (fun c => c <> hyphen /\ c <> underscore) (parse_classical_filename filename).2
  /\ (Forall (fun c => c <> colon /\ c <> fullwidth_colon) filename ->
      parse_classical_filename filename = (py "Unknown", name)).
Proof.
  intros name.
  pose proof (normalized_no_hyphen (Py.splitext filename).1) as Hname. fold name in Hname.
  assert (Hunknown : Forall (fun c => c <> hyphen /\ c <> underscore) (py "Unknown")).
  { repeat constructor; discriminate. }
  unfold parse_classical_filename, re_split. fold name.
  split; [|split; [|split]].
  - destruct (first_match name) as [[l r]|]; simpl.
    + destruct (length (Py.strip l) <? 2)%nat eqn:Hlen; simpl; [lia|].
      apply Nat.ltb_ge in Hlen. exact Hlen.
    + lia.
  - destruct (first_match name) as [[l r]|] eqn:Hmatch; simpl; [|exact Hunknown].
    destruct (length (Py.strip l) <? 2)%nat; simpl; [exact Hunknown|].
    apply strip_Forall. exact (proj1 (first_match_Forall _ _ _ _ Hname Hmatch)).
  - destruct (first_match name) as [[l r]|] eqn:Hmatch; simpl.
    + destruct (length (Py.strip l) <? 2)%nat; simpl;
        apply strip_Forall; exact (proj2 (first_match_Forall _ _ _ _ Hname Hmatch)).
    + exact Hname.
  - intros Hcolon.
    assert (Hroot : Forall (fun c => c <> colon /\ c <> fullwidth_colon)
                      (Py.splitext filename).1).
    { unfold Py.splitext. destruct (_ && _); simpl; [apply Forall_take|]; exact Hcolon. }
    assert (Hnone : Forall (fun c => is_delim c = false) name).
    { apply Forall_forall. intros c Hc.
      pose proof (proj1 (Forall_forall _ _) Hname c Hc) as [Hh _].
      assert (Hc' : c <> colon /\ c <> fullwidth_colon).
      { unfold name, Py.replace in Hc. rewrite <- list_fmap_compose in Hc.
        apply list_elem_of_fmap in Hc as (x & -> & Hx).
        pose proof (proj1 (Forall_forall _ _) Hroot x Hx) as [H1 H2]. simpl.
        destruct (x =? underscore); simpl; [split; discriminate|].
        destruct (x =? hyphen); [split; discriminate | split; assumption]. }
      destruct Hc' as [H1 H2]. unfold is_delim.
      apply N.eqb_neq in H1, H2, Hh. rewrite H1, H2, Hh. reflexivity. }
    rewrite (first_match_none name Hnone). reflexivity.
Qed.

Lemma parse_guess_shape_witness :
  parse_classical_filename (py "Strauss - Blue Danube.mp3")
  = (py "Unknown", py "Strauss   Blue Danube").
Proof.
  apply (proj2 (proj2 (proj2 (parse_guess_shape (py "Strauss - Blue Danube.mp3"))))).
  repeat (constructor; [split; discriminate|]). constructor.
Defined.

End Guess.

(** ** The lookup *)

Section Lookup.
Import AutoTagger.
Variable w : world.

(** The record that the lookup builds: always the six fields. *)
Lemma lookup_some (artist_guess track_guess : Py.str) (s s' : state)
    (meta : gmap string Py.str) :
  lookup_musicbrainz_recording w artist_guess track_guess s = (Ok (Some meta), s') ->
  s' = s
  /\ exists best others title artist album date,
       search_recordings w track_guess artist_guess = Ok (best :: others)
       /\ title = default track_guess (recording_title best)
       /\ meta = <["genre" := py "Classical"]>
                   (<["composer" := artist_guess]>
                      (<["date" := date]>
                         (<["album" := album]>
                            (<["artist" := artist]> (<["title" := title]> ∅))))).
Proof.
  unfold lookup_musicbrainz_recording, try_except, bind, lift, ret, raise, print, modify.
  destruct (search_recordings w track_guess artist_guess) as [[|best others]|e];
    cbv beta iota.
  - discriminate.
  - destruct (artist_credit best) as [|[artist|] credits]; cbv beta iota.
    + destruct (release_list best) as [|release releases]; intros [= <- <-];
        (split; [reflexivity|]); repeat eexists.
    + destruct (release_list best) as [|release releases]; intros [= <- <-];
        (split; [reflexivity|]); repeat eexists.
    + cbn [is_Exception]. discriminate.
  - destruct (is_Exception e); discriminate.
Qed.

(** X15. The metadata of a found recording has exactly the six fields that
    the tag writer stores.  The composer is the artist guess and the
    genre is "Classical", whatever the record says; the title is the
    title of the first record, or the guess when that record has none.
    The records after the first play no part.  A failing search is
    reported and gives no metadata; it does not end the walk. *)
Theorem lookup_result (artist_guess track_guess : Py.str) (s : state) :
  (forall meta s',
     lookup_musicbrainz_recording w artist_guess track_guess s = (Ok (Some meta), s') ->
     s' = s
     /\ (forall key, is_Some (meta !! key) <-> key ∈ tag_fields)
     /\ meta !! "composer" = Some artist_guess
     /\ meta !! "genre" = Some (py "Classical")
     /\ exists best others,
          search_recordings w track_guess artist_guess = Ok (best :: others)
          /\ meta !! "title" = Some (default track_guess (recording_title best)))
  /\ (forall e,
        search_recordings w track_guess artist_guess = Raise e ->
        is_Exception e = true ->
        lookup_musicbrainz_recording w artist_guess track_guess s
        = (Ok None, {| fs := fs s; out := out s ++ [QueryError e] |})).
Proof.
  split.
  - intros meta s' Hlookup.
    destruct (lookup_some _ _ _ _ _ Hlookup)
      as (-> & best & others & title & artist & album & date & Hsearch & -> & ->).
    split; [reflexivity|]. split; [|split; [|split]].
    + intros key. unfold tag_fields. rewrite !elem_of_cons, elem_of_nil.
      rewrite !lookup_insert, lookup_empty. split.
      * repeat (case_decide; [subst key; tauto|]). intros [x Hx]. discriminate Hx.
      * intros Hin. repeat (destruct Hin as [->|Hin]; [
          repeat (case_decide; [eexists; reflexivity|]); congruence|]).
        contradiction.
    + reflexivity.
    + reflexivity.
    + exists best, others. split; [exact Hsearch | reflexivity].
  - intros e Hsearch Hexn.
    unfold lookup_musicbrainz_recording, try_except, bind, lift.
    rewrite Hsearch, Hexn. reflexivity.
Qed.

End Lookup.

Section LookupExamples.
Import AutoTagger.

Lemma lookup_result_witness :
  (forall key,
     is_Some ((<["genre" := py "Classical"]>
                 (<["composer" := py "Chopin"]>
                    (<["date" := []]>
                       (<["album" := []]>
                          (<["artist" := py "Chopin"]>
                             (<["title" := py "Polonaise in G minor"]> ∅)))))
               : gmap string Py.str) !! key)
     <-> key ∈ tag_fields)
  /\ (lookup_musicbrainz_recording
        {| search_recordings := fun _ _ => Raise (OtherError "NetworkError") |}
        (py "Chopin") (py "Polonaise") Samples.library).1 = Ok None.
Proof.
  split.
  - apply (proj1 (lookup_result Samples.mb_bare (py "Chopin") (py "Polonaise in G minor")
                    Samples.library) _ Samples.library eq_refl).
  - rewrite (proj2 (lookup_result
                      {| search_recordings := fun _ _ => Raise (OtherError "NetworkError") |}
                      (py "Chopin") (py "Polonaise") Samples.library)
               (OtherError "NetworkError") eq_refl eq_refl).
    reflexivity.
Defined.

End LookupExamples.

(** ** The walk *)

Section Walk.
Import AutoTagger.
Variable w : world.

Lemma first_value_raises (audio : gmap string frame) (key : string) (e : exn) :
  first_value audio key = Raise e -> e = IndexError.
Proof.
  unfold first_value, index.
  destruct (_ !! 0%nat); [discriminate | intros [= <-]; reflexivity].
Qed.

Lemma set_id3_tags_returns (filepath : Py.str) (mb_data : gmap string Py.str) (s : state) :
  exists s', set_id3_tags filepath mb_data s = (Ok tt, s').
Proof.
  unfold set_id3_tags, try_except, bind at 1, open_or_init, EasyID3.
  destruct (fs s !! filepath) as [[tags|]|]; cbv beta iota.
  - unfold bind, write_file, modify, lift, print. cbv beta iota.
    repeat (match goal with
            | |- context [first_value ?a ?k] =>
                let H := fresh in
                destruct (first_value a k) as [?|?] eqn:H;
                [|apply first_value_raises in H; subst]
            end; cbv beta iota);
      eexists; reflexivity.
  - unfold bind at 1, write_file at 1, modify at 1. cbv beta iota.
    unfold lift at 1, EasyID3. cbn [fs]. rewrite lookup_insert_eq. cbv beta iota.
    unfold bind, write_file, modify, lift, print. cbv beta iota.
    repeat (match goal with
            | |- context [first_value ?a ?k] =>
                let H := fresh in
                destruct (first_value a k) as [?|?] eqn:H;
                [|apply first_value_raises in H; subst]
            end; cbv beta iota);
      eexists; reflexivity.
  - cbn [is_Exception]. unfold print, modify. eexists. reflexivity.
Qed.

(** X16. [set_id3_tags] always returns: whatever goes wrong while it writes
    is printed and goes no further.  On a path that holds no file it
    prints the error and changes no file. *)
Theorem tag_errors_are_reported (filepath : Py.str) (mb_data : gmap string Py.str)
    (s : state) :
  (set_id3_tags filepath mb_data s).1 = Ok tt
  /\ (fs s !! filepath = None ->
      set_id3_tags filepath mb_data s
      = (Ok tt, {| fs := fs s; out := out s ++ [TagError (OtherError "MutagenError")] |})).
Proof.
  split.
  - destruct (set_id3_tags_returns filepath mb_data s) as [s' ->]. reflexivity.
  - intros Hnone. unfold set_id3_tags, try_except, bind at 1, open_or_init, EasyID3.
    rewrite Hnone. reflexivity.
Qed.

Lemma lookup_keeps_fs (artist_guess track_guess : Py.str) (s : state) :
  fs (lookup_musicbrainz_recording w artist_guess track_guess s).2 = fs s.
Proof.
  unfold lookup_musicbrainz_recording, try_except, bind, lift, ret, raise, print, modify.
  destruct (search_recordings w track_guess artist_guess) as [[|best others]|e];
    cbv beta iota; [reflexivity| |destruct (is_Exception e); reflexivity].
  destruct (artist_credit best) as [|[artist|] credits]; reflexivity.
Qed.

(** The files after one file was taken up: as before, or with new tags
    in that file, which was there and has the ".mp3" ending. *)
Lemma process_file_fs (dirpath fname : Py.str) (s : state) :
  fs (after (process_file w dirpath fname) s) = fs s
  \/ (Py.endswith (Py.lower fname) (py ".mp3") = true
      /\ exists file tags,
           fs s !! Py.join dirpath fname = Some file
           /\ fs (after (process_file w dirpath fname) s)
              = <[Py.join dirpath fname := Some tags]> (fs s)).
Proof.
  unfold after, process_file.
  destruct (Py.endswith (Py.lower fname) (py ".mp3")); cbn [negb]; [|left; reflexivity].
  destruct (parse_classical_filename fname) as [composer_guess track_guess].
  unfold bind, print, modify. cbv beta iota.
  case_bool_decide; [left; reflexivity|].
  match goal with
  | |- context [lookup_musicbrainz_recording w ?c ?t ?st] =>
      pose proof (lookup_keeps_fs c t st) as Hfs;
      destruct (lookup_musicbrainz_recording w c t st) as [[[metadata|]|e] s1]
  end; cbn [fs snd] in Hfs; [| left; exact Hfs | left; exact Hfs].
  pose proof (set_id3_tags_fs (Py.join dirpath fname) metadata s1) as Hset.
  unfold after in Hset. rewrite Hfs in Hset.
  destruct (fs s !! Py.join dirpath fname) as [file|] eqn:Hfile; [|left; exact Hset].
  right. split; [reflexivity|]. exists file, (store_fields metadata (default ∅ file)).
  split; [reflexivity | exact Hset].
Qed.

Lemma after_bind_cases {A B} (c : M state A) (k : A -> M state B) (s : state) :
  after (bind c k) s = after c s \/ exists a, after (bind c k) s = after (k a) (after c s).
Proof.
  unfold after, bind. destruct (c s) as [[a|e] s1]; [right; exists a | left]; reflexivity.
Qed.

Lemma for_each_files_fs (dirpath : Py.str) (filenames : list Py.str) (path : Py.str) :
  forall s,
    let s' := after (for_each (process_file w dirpath) filenames) s in
    (is_Some (fs s' !! path) <-> is_Some (fs s !! path))
    /\ (path ∉ Py.join dirpath
               <$> filter (fun fname => Py.endswith (Py.lower fname) (py ".mp3") = true)
                     filenames ->
        fs s' !! path = fs s !! path).
Proof.
  induction filenames as [|fname rest IH]; intros s; cbn [for_each].
  - split; [reflexivity | intros _; reflexivity].
  - assert (Hone : (is_Some (fs (after (process_file w dirpath fname) s) !! path)
                    <-> is_Some (fs s !! path))
                   /\ (path ∉ Py.join dirpath
                              <$> filter (fun fname =>
                                            Py.endswith (Py.lower fname) (py ".mp3") = true)
                                    (fname :: rest) ->
                       fs (after (process_file w dirpath fname) s) !! path
                       = fs s !! path)).
    { destruct (process_file_fs dirpath fname s)
        as [-> | (Hmp3 & file & tags & Hfile & ->)];
        [split; [reflexivity | intros _; reflexivity]|].
      rewrite lookup_insert. case_decide as Hpath.
      - subst path. rewrite Hfile. split; [split; intros _; eexists; reflexivity|].
        intros Hout. exfalso. apply Hout. rewrite filter_cons_True by exact Hmp3.
        rewrite fmap_cons. apply list_elem_of_here.
      - split; [reflexivity | intros _; reflexivity]. }
    destruct (after_bind_cases (process_file w dirpath fname)
                (fun _ => for_each (process_file w dirpath) rest) s) as [-> | [[] ->]];
      [exact Hone|].
    destruct (IH (after (process_file w dirpath fname) s)) as [IH1 IH2].
    destruct Hone as [H1 H2]. split.
    + rewrite IH1. exact H1.
    + intros Hout. rewrite IH2, H2; [reflexivity | exact Hout |].
      intros Hin. apply Hout. rewrite filter_cons.
      destruct (decide _); [rewrite fmap_cons; apply list_elem_of_further|]; exact Hin.
Qed.

(** X17. The walk changes tags, not the set of files: every path holds a file
    after the walk exactly when it did before, and a file that is not one
    of the walked ".mp3" files is as it was. *)
Theorem walk_frame (walk : list (Py.str * list Py.str)) (path : Py.str) (s : state) :
  let s' := after (main w walk) s in
  (is_Some (fs s' !! path) <-> is_Some (fs s !! path))
  /\ (path ∉ walked_paths walk -> fs s' !! path = fs s !! path).
Proof.
  unfold main. revert s.
  induction walk as [|[dirpath filenames] rest IH]; intros s; cbn [for_each].
  - split; [reflexivity | intros _; reflexivity].
  - pose proof (for_each_files_fs dirpath filenames path s) as [H1 H2].
    assert (Hsplit :
              (path ∉ walked_paths ((dirpath, filenames) :: rest)) ->
              (path ∉ Py.join dirpath
                      <$> filter (fun fname =>
                                    Py.endswith (Py.lower fname) (py ".mp3") = true)
                            filenames)
              /\ path ∉ walked_paths rest).
    { intros Hout. unfold walked_paths in *. cbn [mbind list_bind] in Hout.
      rewrite elem_of_app in Hout. tauto. }
    destruct (after_bind_cases (for_each (process_file w dirpath) filenames)
                (fun _ => for_each
                            (fun '(dirpath, filenames) =>
                               for_each (process_file w dirpath) filenames) rest) s)
      as [-> | [[] ->]].
    + split; [exact H1|]. intros Hout. apply H2. exact (proj1 (Hsplit Hout)).
    + destruct (IH (after (for_each (process_file w dirpath) filenames) s)) as [IH1 IH2].
      split.
      * rewrite IH1. exact H1.
      * intros Hout. destruct (Hsplit Hout) as [Ha Hb].
        rewrite IH2 by exact Hb. apply H2. exact Ha.
Qed.

(** X19. The sentinel "[unknown]" never reaches a file: a field that the
    writer stores does not hold it afterwards, and where the record has
    it the file has "Unknown". *)
Theorem unknown_is_spelled_out (filepath : Py.str) (mb_data : gmap string Py.str)
    (s : state) (key : string) :
  is_Some (fs s !! filepath) -> key ∈ tag_fields ->
  let s' := after (set_id3_tags filepath mb_data) s in
  (forall val, mb_data !! key = Some val -> val <> [] ->
     field_at (fs s') filepath key <> Some (Text [py "[unknown]"]))
  /\ (mb_data !! key = Some (py "[unknown]") ->
      field_at (fs s') filepath key = Some (Text [py "Unknown"])).
Proof.
  intros [file Hfile] Hkey s'. unfold s'.
  assert (Hwritten : forall val, mb_data !! key = Some val -> val <> [] ->
            field_at (fs (after (set_id3_tags filepath mb_data) s)) filepath key
            = Some (Text [normalize_unknown val])).
  { intros val Hval Hne. rewrite set_id3_tags_field, Hfile. unfold written.
    rewrite bool_decide_eq_true_2 by exact Hkey. rewrite Hval.
    rewrite bool_decide_eq_false_2 by exact Hne. reflexivity. }
  split.
  - intros val Hval Hne. rewrite (Hwritten val Hval Hne). unfold normalize_unknown, Py.eqb.
    case_bool_decide as Hsentinel; [discriminate|]. congruence.
  - intros Hval. rewrite (Hwritten _ Hval); [reflexivity | discriminate].
Qed.

End Walk.

Section RunEndExamples.
Import SpotifyDownloader.

Lemma run_ends_with_one_line_witness :
  let w := Samples.online 200 true (Samples.search_misses (py "Two")) Samples.audio_up in
  exists s',
    main w 1 (Samples.start [Samples.playlist_url] ∅) = Some s'
    /\ ((exists e, last (out s') = Some (Error e))
        \/ last (out s') = Some Canceled
        \/ (exists downloaded_count total_songs,
              last (out s') = Some (Summary downloaded_count total_songs)
              /\ (downloaded_count <= total_songs)%nat
              /\ forall path,
                   Py.startswith path (py "../music/tmp/") = true -> fs s' !! path = None)).
Proof.
  intros w.
  destruct (main w 1 (Samples.start [Samples.playlist_url] ∅)) as [s'|] eqn:Hmain.
  - exists s'. split; [reflexivity|].
    exact (run_ends_with_one_line w 1 _ s' Hmain).
  - exfalso. vm_compute in Hmain. discriminate Hmain.
Defined.

End RunEndExamples.

Section WalkExamples.
Import AutoTagger.

Lemma tag_errors_are_reported_witness :
  set_id3_tags (py "music/missing.mp3") Samples.mb_data Samples.library
  = (Ok tt, {| fs := fs Samples.library;
               out := [TagError (OtherError "MutagenError")] |}).
Proof.
  apply (proj2 (tag_errors_are_reported (py "music/missing.mp3") Samples.mb_data
                  Samples.library)).
  vm_compute. reflexivity.
Defined.

Lemma walk_frame_witness :
  let walk := [(py "music", [Samples.polonaise; py "cover.jpg"])] in
  fs (after (main Samples.mb_bare walk) Samples.library) !! py "music/cover.jpg"
  = fs Samples.library !! py "music/cover.jpg".
Proof.
  intros walk.
  apply (proj2 (walk_frame Samples.mb_bare walk (py "music/cover.jpg") Samples.library)).
  intros Hin. apply list_elem_of_In in Hin. vm_compute in Hin.
  destruct Hin as [Hin | []]. discriminate Hin.
Defined.

Lemma unknown_is_spelled_out_witness :
  let path := Py.join (py "music") Samples.polonaise in
  field_at (fs (after (set_id3_tags path Samples.mb_data) Samples.library)) path "artist"
  = Some (Text [py "Unknown"]).
Proof.
  intros path.
  apply (proj2 (unknown_is_spelled_out path Samples.mb_data Samples.library "artist"
                  ltac:(eexists; vm_compute; reflexivity)
                  ltac:(apply list_elem_of_In; right; left; reflexivity))).
  vm_compute. reflexivity.
Defined.

End WalkExamples.

Section IsolationExamples.
Import SpotifyDownloader.

Lemma search_failure_is_caught_witness :
  let w := Samples.online 200 true (Samples.search_misses (py "Two")) Samples.audio_up in
  (process_song w 3 2 (Samples.song (py "Two")) 1 (Samples.start [] ∅)).1 = Ok 1%nat.
Proof.
  intros w.
  assert (Hsearch : find_youtube w (py "A Two audio")
                      (emit [Searching 2 3 (py "A Two audio")] (Samples.start [] ∅))
                    = (Raise (ValueError "No YouTube results found for query."),
                       after (find_youtube w (py "A Two audio"))
                         (emit [Searching 2 3 (py "A Two audio")] (Samples.start [] ∅)))).
  { vm_compute. reflexivity. }
  rewrite (proj1 (search_failure_is_caught w 3 2 1 (Samples.song (py "Two"))
                    (Samples.start [] ∅) _ _ Hsearch eq_refl)).
  reflexivity.
Defined.

End IsolationExamples.
